(** * Military Assets Management front-end: session, permissions, list controllers

    A shallow embedding of the React/TypeScript front-end.  Component state
    held in [useState] cells is a record, every handler is a function from
    the state before the call to the state after it, and the outcome of an
    awaited request is an explicit argument of the handler that awaits it.
    Browser storage and the axios default headers are finite maps keyed by
    strings. *)

From Stdlib Require Import ZArith List Bool Lia.
From Stdlib Require Import Strings.String Strings.Ascii.
From stdpp Require Import base option list strings gmap pretty.
Import ListNotations.

Local Open Scope string_scope.

(** ** The JavaScript fragments the pages rely on *)

Module JS.

(** Truthiness of a string: only the empty string is falsy. *)
Definition truthy (s : string) : bool := negb (String.eqb s "").

(** Truthiness of [string | undefined | null]. *)
Definition truthy_opt (o : option string) : bool :=
  match o with
  | Some s => truthy s
  | None => false
  end.

(** [x === lit] where [x] comes out of an optional chain ([user?.role]):
    [undefined] is never strictly equal to a string. *)
Definition strict_eq (x : option string) (s : string) : bool :=
  match x with
  | Some v => String.eqb v s
  | None => false
  end.

(** [x || fallback] on [string | undefined]. *)
Definition or_else (x : option string) (fallback : string) : string :=
  match x with
  | Some v => if truthy v then v else fallback
  | None => fallback
  end.

(** [s.includes(t)]: [t] occurs in [s] as a contiguous substring. *)
Fixpoint includes (s t : string) : bool :=
  String.prefix t s ||
  match s with
  | EmptyString => false
  | String _ s' => includes s' t
  end.

(** [Array.prototype.slice(start, end)] with integer arguments: negative
    indices count from the end, both ends are clamped to the array, and an
    empty range gives the empty array. *)
Definition slice {A : Type} (l : list A) (start finish : Z) : list A :=
  let len := Z.of_nat (length l) in
  let k := if (start <? 0)%Z then Z.max (len + start) 0 else Z.min start len in
  let final := if (finish <? 0)%Z then Z.max (len + finish) 0 else Z.min finish len in
  take (Z.to_nat (final - k)) (drop (Z.to_nat k) l).

(** [{cond && <>...</>}] inside JSX: the elements are rendered when the
    condition holds and nothing is rendered otherwise. *)
Definition render_if {A : Type} (cond : bool) (xs : list A) : list A :=
  if cond then xs else [].

End JS.

(** ** What a request settles to *)

(** The part of an axios error the handlers read:
    [err.response?.data?.error] and [err.response?.status]. *)
Record AxiosError := mkAxiosError {
  response_data_error : option string;
  response_status : option nat
}.

Inductive Settled (A : Type) : Type :=
| Resolved (data : A)
| Rejected (err : AxiosError).
Arguments Resolved {A} data.
Arguments Rejected {A} err.

(** ** Buttons of a table row *)

Inductive ActionKind := Approve | Reject | Edit | Delete | Expend.

Record IconButton := mkIconButton {
  title : ActionKind;
  disabled : bool
}.

Definition button (k : ActionKind) : IconButton := mkIconButton k false.

(** ** contexts/AuthContext.tsx *)

Module AuthContext.

(** [interface User]; the name and timestamp fields are display-only. *)
Record User := mkUser {
  id : string;
  username : string;
  role : string;
  base_id : option string;
  is_active : bool
}.

(** [user?.role] and [user?.base_id]. *)
Definition role_of (user : option User) : option string := role <$> user.
Definition base_id_of (user : option User) : option string := user ≫= base_id.

(** The provider's two [useState] cells together with the two globals its
    functions write: [localStorage] and [axios.defaults.headers.common]. *)
Record State := mkState {
  localStorage : gmap string string;
  headers : gmap string string;
  user : option User;
  loading : bool
}.

Definition setLocalStorage (ls : gmap string string) (s : State) : State :=
  mkState ls (headers s) (user s) (loading s).
Definition setHeaders (h : gmap string string) (s : State) : State :=
  mkState (localStorage s) h (user s) (loading s).
Definition setUser (u : option User) (s : State) : State :=
  mkState (localStorage s) (headers s) u (loading s).
Definition setLoading (b : bool) (s : State) : State :=
  mkState (localStorage s) (headers s) (user s) b.

Definition getItem (key : string) (s : State) : option string :=
  localStorage s !! key.
Definition setItem (key value : string) (s : State) : State :=
  setLocalStorage (<[key := value]> (localStorage s)) s.
Definition removeItem (key : string) (s : State) : State :=
  setLocalStorage (delete key (localStorage s)) s.

Definition bearer (token : string) : string := "Bearer " ++ token.

(** State of a freshly mounted provider over whatever the browser kept. *)
Definition initial (persisted : gmap string string) : State :=
  mkState persisted ∅ None true.

(** First effect: "Configure axios defaults". *)
Definition configureAxios (s : State) : State :=
  match getItem "token" s with
  | Some token =>
      if JS.truthy token
      then setHeaders (<["Authorization" := bearer token]> (headers s)) s
      else s
  | None => s
  end.

(** [checkAuth], the part after [await axios.get(.../auth/profile)]. *)
Definition checkAuth_settle (s : State) (response : Settled User) : State :=
  match response with
  | Resolved data => setUser (Some data) s
  | Rejected _ =>
      let s1 := removeItem "token" s in
      let s2 := removeItem "refreshToken" s1 in
      setHeaders (delete "Authorization" (headers s2)) s2
  end.

(** Second effect: "Check if user is already logged in". *)
Definition checkAuth (s : State) (response : Settled User) : State :=
  let s' := if JS.truthy_opt (getItem "token" s)
            then checkAuth_settle s response
            else s in
  setLoading false s'.

(** [response.data.data] of [POST /auth/login]. *)
Record LoginData := mkLoginData {
  login_user : User;
  login_token : string;
  login_refreshToken : string
}.

(** What an async function of the provider throws. *)
Inductive Thrown :=
| ErrorMessage (message : string)
| AxiosFailure (err : AxiosError).

Definition login (s : State) (response : Settled LoginData)
  : State * option Thrown :=
  match response with
  | Resolved data =>
      let s1 := setItem "token" (login_token data) s in
      let s2 := setItem "refreshToken" (login_refreshToken data) s1 in
      let s3 := setHeaders
                  (<["Authorization" := bearer (login_token data)]> (headers s2)) s2 in
      (setUser (Some (login_user data)) s3, None)
  | Rejected error =>
      (s, Some (ErrorMessage (JS.or_else (response_data_error error) "Login failed")))
  end.

Definition logout (s : State) : State :=
  let s1 := removeItem "token" s in
  let s2 := removeItem "refreshToken" s1 in
  let s3 := setHeaders (delete "Authorization" (headers s2)) s2 in
  setUser None s3.

(** [refreshToken]; [response] is [response.data.data.token] of
    [POST /auth/refresh]. *)
Definition refreshToken (s : State) (response : Settled string)
  : State * option Thrown :=
  if negb (JS.truthy_opt (getItem "refreshToken" s)) then
    (logout s, Some (ErrorMessage "No refresh token"))
  else
    match response with
    | Resolved token =>
        let s1 := setItem "token" token s in
        (setHeaders (<["Authorization" := bearer token]> (headers s1)) s1, None)
    | Rejected error => (logout s, Some (AxiosFailure error))
    end.

(** The calls a consumer of the context can make once the provider has
    mounted, each with what its request settles to. *)
Inductive Call :=
| CallLogin (response : Settled LoginData)
| CallLogout
| CallRefreshToken (response : Settled string).

Definition call (s : State) (c : Call) : State :=
  match c with
  | CallLogin response => fst (login s response)
  | CallLogout => logout s
  | CallRefreshToken response => fst (refreshToken s response)
  end.

(** Mounting runs both effects; [profile] is what the profile request
    settles to when one is sent. *)
Definition mount (persisted : gmap string string) (profile : Settled User) : State :=
  checkAuth (configureAxios (initial persisted)) profile.

(** States of a session in which the start-up check has settled before
    the first call and every call runs to completion before the next. *)
Inductive Reachable : State -> Prop :=
| reach_mount persisted profile : Reachable (mount persisted profile)
| reach_call s c : Reachable s -> Reachable (call s c).

(** "If the access token is absent, the principal is null." *)
Definition token_invariant (s : State) : Prop :=
  getItem "token" s = None -> user s = None.

End AuthContext.

(** ** contexts/DataContext.tsx *)

Module DataContext.

Record Base := mkBase {
  base_id : string;
  base_name : string;
  base_code : string
}.

Record AssetType := mkAssetType {
  asset_type_id : string;
  asset_type_name : string
}.

Record Asset := mkAsset {
  id : string;
  name : string;
  base : string;
  quantity : Z;
  available_quantity : Z;
  assigned_quantity : Z;
  status : string
}.

Record State := mkState {
  bases : list Base;
  assetTypes : list AssetType;
  assets : list Asset;
  loading : bool;
  error : option string
}.

Definition setBases (v : list Base) (s : State) : State :=
  mkState v (assetTypes s) (assets s) (loading s) (error s).
Definition setAssetTypes (v : list AssetType) (s : State) : State :=
  mkState (bases s) v (assets s) (loading s) (error s).
Definition setAssets (v : list Asset) (s : State) : State :=
  mkState (bases s) (assetTypes s) v (loading s) (error s).
Definition setLoading (v : bool) (s : State) : State :=
  mkState (bases s) (assetTypes s) (assets s) v (error s).
Definition setError (v : option string) (s : State) : State :=
  mkState (bases s) (assetTypes s) (assets s) (loading s) v.

Definition initial : State := mkState [] [] [] true None.

(** The [catch] block shared by the three fetchers. *)
Definition fetch_error (err : AxiosError) (fallback : string) : string :=
  match response_status err with
  | Some 401 => "Authentication required. Please log in."
  | _ => fallback
  end.

Definition fetchBases (s : State) (response : Settled (list Base)) : State :=
  match response with
  | Resolved data => setError None (setBases data s)
  | Rejected err => setError (Some (fetch_error err "Failed to fetch bases")) s
  end.

Definition fetchAssetTypes (s : State) (response : Settled (list AssetType)) : State :=
  match response with
  | Resolved data => setError None (setAssetTypes data s)
  | Rejected err => setError (Some (fetch_error err "Failed to fetch asset types")) s
  end.

Definition fetchAssets (s : State) (response : Settled (list Asset)) : State :=
  match response with
  | Resolved data => setError None (setAssets data s)
  | Rejected err => setError (Some (fetch_error err "Failed to fetch assets")) s
  end.

(** The effect on [[user, authLoading]].  The three requests of
    [Promise.all] are settled here in the order they are listed. *)
Definition initializeData (authLoading : bool) (user : option AuthContext.User)
    (s : State)
    (rb : Settled (list Base)) (rt : Settled (list AssetType))
    (ra : Settled (list Asset)) : State :=
  if authLoading then s
  else match user with
       | Some _ =>
           let s1 := setLoading true s in
           let s2 := fetchAssets (fetchAssetTypes (fetchBases s1 rb) rt) ra in
           setLoading false s2
       | None =>
           setAssets [] (setAssetTypes [] (setBases [] (setLoading false s)))
       end.

End DataContext.

(** ** components/FilterBar.tsx *)

Module FilterBar.

(** The argument of [onFiltersChange]. *)
Record Selection := mkSelection { base_id : string }.

Definition handleFilterSubmit (selectedBase : string) : Selection :=
  mkSelection selectedBase.

Definition handleClearFilters : Selection := mkSelection "".

End FilterBar.

(** ** pages/Assets.tsx *)

Module Assets.

Record Asset := mkAsset {
  id : string;
  name : string;
  base_id : string;
  current_base_name : string;
  status : string;
  quantity : Z;
  available_quantity : Z
}.

Record Filters := mkFilters {
  f_name : string;
  f_base_id : string;
  f_status : string
}.

Record State := mkState {
  allAssets : list Asset;
  loading : bool;
  error : string;
  page : nat;
  rowsPerPage : nat;
  filters : Filters
}.

Definition setAllAssets (v : list Asset) (s : State) : State :=
  mkState v (loading s) (error s) (page s) (rowsPerPage s) (filters s).
Definition setLoading (v : bool) (s : State) : State :=
  mkState (allAssets s) v (error s) (page s) (rowsPerPage s) (filters s).
Definition setError (v : string) (s : State) : State :=
  mkState (allAssets s) (loading s) v (page s) (rowsPerPage s) (filters s).
Definition setPage (v : nat) (s : State) : State :=
  mkState (allAssets s) (loading s) (error s) v (rowsPerPage s) (filters s).
Definition setRowsPerPage (v : nat) (s : State) : State :=
  mkState (allAssets s) (loading s) (error s) (page s) v (filters s).
Definition setFilters (v : Filters) (s : State) : State :=
  mkState (allAssets s) (loading s) (error s) (page s) (rowsPerPage s) v.

Definition initial : State := mkState [] true "" 0 10 (mkFilters "" "" "").

Definition fetchAllAssets (s : State) (response : Settled (list Asset)) : State :=
  let s1 := setLoading true s in
  let s2 := match response with
            | Resolved data => setAllAssets data s1
            | Rejected err =>
                setError (JS.or_else (response_data_error err) "Failed to fetch assets") s1
            end in
  setLoading false s2.

Section Filtering.
(** [String.prototype.toLowerCase]. *)
Variable toLowerCase : string -> string.

Definition keep (filters : Filters) (asset : Asset) : bool :=
  if JS.truthy (f_name filters)
     && negb (JS.includes (toLowerCase (name asset)) (toLowerCase (f_name filters)))
  then false
  else if JS.truthy (f_base_id filters)
          && negb (String.eqb (base_id asset) (f_base_id filters))
  then false
  else if JS.truthy (f_status filters)
          && negb (String.eqb (status asset) (f_status filters))
  then false
  else true.

Definition filteredAssets (allAssets : list Asset) (filters : Filters) : list Asset :=
  List.filter (keep filters) allAssets.
End Filtering.

Definition paginatedAssets (filteredAssets : list Asset) (page rowsPerPage : nat)
  : list Asset :=
  let start := page * rowsPerPage in
  JS.slice filteredAssets (Z.of_nat start) (Z.of_nat (start + rowsPerPage)).

(** The rows of the table body: [paginatedAssets.map(...)]. *)
Definition rows (toLowerCase : string -> string) (s : State) : list Asset :=
  paginatedAssets (filteredAssets toLowerCase (allAssets s) (filters s))
    (page s) (rowsPerPage s).

Definition handleFiltersChange (s : State) (filters : FilterBar.Selection) : State :=
  let s1 := setFilters
              (mkFilters "" (JS.or_else (Some (FilterBar.base_id filters)) "") "") s in
  setPage 0 s1.

End Assets.

(** ** pages/Transfers.tsx *)

Module Transfers.

Record Transfer := mkTransfer {
  id : string;
  asset_name : string;
  from_base_id : string;
  to_base_id : string;
  quantity : Z;
  status : string;
  transfer_date : string
}.

Record Filters := mkFilters {
  f_from_base_id : string;
  f_to_base_id : string;
  f_asset_name : string;
  f_status : string;
  f_start_date : string;
  f_end_date : string
}.

Record State := mkState {
  transfers : list Transfer;
  loading : bool;
  error : string;
  page : nat;
  rowsPerPage : nat;
  total : nat;
  filters : Filters
}.

Definition setTransfers (v : list Transfer) (s : State) : State :=
  mkState v (loading s) (error s) (page s) (rowsPerPage s) (total s) (filters s).
Definition setLoading (v : bool) (s : State) : State :=
  mkState (transfers s) v (error s) (page s) (rowsPerPage s) (total s) (filters s).
Definition setError (v : string) (s : State) : State :=
  mkState (transfers s) (loading s) v (page s) (rowsPerPage s) (total s) (filters s).
Definition setPage (v : nat) (s : State) : State :=
  mkState (transfers s) (loading s) (error s) v (rowsPerPage s) (total s) (filters s).
Definition setRowsPerPage (v : nat) (s : State) : State :=
  mkState (transfers s) (loading s) (error s) (page s) v (total s) (filters s).
Definition setTotal (v : nat) (s : State) : State :=
  mkState (transfers s) (loading s) (error s) (page s) (rowsPerPage s) v (filters s).
Definition setFilters (v : Filters) (s : State) : State :=
  mkState (transfers s) (loading s) (error s) (page s) (rowsPerPage s) (total s) v.

Definition initial : State := mkState [] true "" 0 10 0 (mkFilters "" "" "" "" "" "").

(** [response] carries [response.data.data] and
    [response.data.pagination.total]. *)
Definition fetchTransfers (s : State) (response : Settled (list Transfer * nat)) : State :=
  let s1 := setLoading true s in
  let s2 := match response with
            | Resolved (data, pagination_total) =>
                setTotal pagination_total (setTransfers data s1)
            | Rejected err =>
                setError (JS.or_else (response_data_error err) "Failed to fetch transfers") s1
            end in
  setLoading false s2.

Definition handleChangePage (s : State) (newPage : nat) : State := setPage newPage s.

Definition handleChangeRowsPerPage (s : State) (value : nat) : State :=
  setPage 0 (setRowsPerPage value s).

Definition canApprove (transfer : Transfer) : bool :=
  String.eqb (status transfer) "pending".

Section WithUser.
(** [const { user } = useAuth()]. *)
Variable user : option AuthContext.User.

Definition canDelete (transfer : Transfer) : bool :=
  if JS.strict_eq (AuthContext.role_of user) "admin" then true
  else if JS.strict_eq (AuthContext.role_of user) "base_commander" then
    (String.eqb (status transfer) "pending" || String.eqb (status transfer) "rejected")
    && (JS.strict_eq (AuthContext.base_id_of user) (from_base_id transfer)
        || JS.strict_eq (AuthContext.base_id_of user) (to_base_id transfer))
  else false.

Definition canEdit (transfer : Transfer) : bool :=
  if JS.strict_eq (AuthContext.role_of user) "admin" then true
  else if JS.strict_eq (AuthContext.role_of user) "base_commander" then
    String.eqb (status transfer) "pending"
    && (JS.strict_eq (AuthContext.base_id_of user) (from_base_id transfer)
        || JS.strict_eq (AuthContext.base_id_of user) (to_base_id transfer))
  else false.

(** The "Actions" cell of a row; [None] when the cell is not rendered. *)
Definition rowActions (transfer : Transfer) : option (list IconButton) :=
  if negb (JS.strict_eq (AuthContext.role_of user) "logistics_officer") then
    Some (JS.render_if
            (JS.strict_eq (AuthContext.role_of user) "admin" && canApprove transfer)
            [button Approve]
          ++ JS.render_if
            (JS.strict_eq (AuthContext.role_of user) "admin" && canApprove transfer)
            [button Reject]
          ++ JS.render_if (canEdit transfer) [button Edit]
          ++ JS.render_if (canDelete transfer) [button Delete])%list
  else None.
End WithUser.

Definition handleFiltersChange (s : State) (filters : FilterBar.Selection) : State :=
  let prev := Transfers.filters s in
  setFilters
    (mkFilters (FilterBar.base_id filters) (f_to_base_id prev) (f_asset_name prev)
               (f_status prev) (f_start_date prev) (f_end_date prev)) s.

End Transfers.

(** ** pages/Purchases.tsx *)

Module Purchases.

Record Purchase := mkPurchase {
  id : string;
  asset_id : string;
  base_id : string;
  quantity : Z;
  supplier : string;
  purchase_date : string;
  status : string
}.

Record Filters := mkFilters {
  f_base_id : string;
  f_start_date : string;
  f_end_date : string;
  f_status : string
}.

Record State := mkState {
  allPurchases : list Purchase;
  loading : bool;
  error : string;
  page : nat;
  rowsPerPage : nat;
  filters : Filters
}.

Definition setAllPurchases (v : list Purchase) (s : State) : State :=
  mkState v (loading s) (error s) (page s) (rowsPerPage s) (filters s).
Definition setLoading (v : bool) (s : State) : State :=
  mkState (allPurchases s) v (error s) (page s) (rowsPerPage s) (filters s).
Definition setError (v : string) (s : State) : State :=
  mkState (allPurchases s) (loading s) v (page s) (rowsPerPage s) (filters s).
Definition setPage (v : nat) (s : State) : State :=
  mkState (allPurchases s) (loading s) (error s) v (rowsPerPage s) (filters s).
Definition setRowsPerPage (v : nat) (s : State) : State :=
  mkState (allPurchases s) (loading s) (error s) (page s) v (filters s).
Definition setFilters (v : Filters) (s : State) : State :=
  mkState (allPurchases s) (loading s) (error s) (page s) (rowsPerPage s) v.

Definition initial : State := mkState [] true "" 0 10 (mkFilters "" "" "" "").

Definition fetchAllPurchases (s : State) (response : Settled (list Purchase)) : State :=
  let s1 := setLoading true s in
  let s2 := match response with
            | Resolved data => setAllPurchases data s1
            | Rejected err =>
                setError (JS.or_else (response_data_error err) "Failed to fetch purchases") s1
            end in
  setLoading false s2.

(** The callback of [allPurchases.filter]; [<] and [>] on strings compare
    them lexicographically. *)
Definition keep (filters : Filters) (purchase : Purchase) : bool :=
  if JS.truthy (f_base_id filters)
     && negb (String.eqb (base_id purchase) (f_base_id filters))
  then false
  else if JS.truthy (f_start_date filters)
          && String.ltb (purchase_date purchase) (f_start_date filters)
  then false
  else if JS.truthy (f_end_date filters)
          && String.ltb (f_end_date filters) (purchase_date purchase)
  then false
  else if JS.truthy (f_status filters)
          && negb (String.eqb (status purchase) (f_status filters))
  then false
  else true.

Definition filteredPurchases (allPurchases : list Purchase) (filters : Filters)
  : list Purchase :=
  List.filter (keep filters) allPurchases.

Definition paginatedPurchases (filteredPurchases : list Purchase)
    (page rowsPerPage : nat) : list Purchase :=
  let start := page * rowsPerPage in
  JS.slice filteredPurchases (Z.of_nat start) (Z.of_nat (start + rowsPerPage)).

(** The rows of the table body: [paginatedPurchases.map(...)]. *)
Definition rows (s : State) : list Purchase :=
  paginatedPurchases (filteredPurchases (allPurchases s) (filters s))
    (page s) (rowsPerPage s).

Definition handleClearFilters (s : State) : State :=
  setPage 0 (setFilters (mkFilters "" "" "" "") s).

Definition canApprove (purchase : Purchase) : bool :=
  String.eqb (status purchase) "pending".

Section WithUser.
(** [const { user } = useAuth()]. *)
Variable user : option AuthContext.User.

Definition canDelete (purchase : Purchase) : bool :=
  if JS.strict_eq (AuthContext.role_of user) "admin" then true
  else if JS.strict_eq (AuthContext.role_of user) "base_commander" then
    (String.eqb (status purchase) "pending" || String.eqb (status purchase) "cancelled")
    && JS.strict_eq (AuthContext.base_id_of user) (base_id purchase)
  else false.

Definition canEdit (purchase : Purchase) : bool :=
  if JS.strict_eq (AuthContext.role_of user) "admin" then true
  else if JS.strict_eq (AuthContext.role_of user) "base_commander" then
    String.eqb (status purchase) "pending"
    && JS.strict_eq (AuthContext.base_id_of user) (base_id purchase)
  else false.

Definition rowActions (purchase : Purchase) : option (list IconButton) :=
  if negb (JS.strict_eq (AuthContext.role_of user) "logistics_officer") then
    Some (JS.render_if
            (JS.strict_eq (AuthContext.role_of user) "admin" && canApprove purchase)
            [button Approve; button Reject]
          ++ JS.render_if (canEdit purchase) [button Edit]
          ++ JS.render_if (canDelete purchase) [button Delete])%list
  else None.
End WithUser.

Definition handleFiltersChange (s : State) (filters : FilterBar.Selection) : State :=
  setFilters (mkFilters (FilterBar.base_id filters) "" "" "") s.

End Purchases.

(** ** pages/Assignments.tsx *)

Module Assignments.

Record Assignment := mkAssignment {
  id : string;
  asset_id : string;
  asset_name : string;
  personnel_id : string;
  base_id : string;
  assignment_date : string;
  status : string;
  quantity : Z;
  expended_quantity : Z
}.

Record Filters := mkFilters {
  f_base_id : string;
  f_status : string;
  f_asset_id : string;
  f_personnel_id : string
}.

Record State := mkState {
  allAssignments : list Assignment;
  loading : bool;
  error : string;
  page : nat;
  rowsPerPage : nat;
  filters : Filters
}.

Definition setAllAssignments (v : list Assignment) (s : State) : State :=
  mkState v (loading s) (error s) (page s) (rowsPerPage s) (filters s).
Definition setLoading (v : bool) (s : State) : State :=
  mkState (allAssignments s) v (error s) (page s) (rowsPerPage s) (filters s).
Definition setError (v : string) (s : State) : State :=
  mkState (allAssignments s) (loading s) v (page s) (rowsPerPage s) (filters s).
Definition setPage (v : nat) (s : State) : State :=
  mkState (allAssignments s) (loading s) (error s) v (rowsPerPage s) (filters s).
Definition setRowsPerPage (v : nat) (s : State) : State :=
  mkState (allAssignments s) (loading s) (error s) (page s) v (filters s).
Definition setFilters (v : Filters) (s : State) : State :=
  mkState (allAssignments s) (loading s) (error s) (page s) (rowsPerPage s) v.

Definition initial : State := mkState [] true "" 0 10 (mkFilters "" "" "" "").

Definition fetchAllAssignments (s : State) (response : Settled (list Assignment))
  : State :=
  let s1 := setLoading true s in
  let s2 := match response with
            | Resolved data => setAllAssignments data s1
            | Rejected err =>
                setError
                  (JS.or_else (response_data_error err) "Failed to fetch assignments") s1
            end in
  setLoading false s2.

Definition keep (filters : Filters) (assignment : Assignment) : bool :=
  if JS.truthy (f_base_id filters)
     && negb (String.eqb (base_id assignment) (f_base_id filters))
  then false
  else if JS.truthy (f_status filters)
          && negb (String.eqb (status assignment) (f_status filters))
  then false
  else if JS.truthy (f_asset_id filters)
          && negb (String.eqb (asset_id assignment) (f_asset_id filters))
  then false
  else if JS.truthy (f_personnel_id filters)
          && negb (String.eqb (personnel_id assignment) (f_personnel_id filters))
  then false
  else true.

Definition filteredAssignments (allAssignments : list Assignment) (filters : Filters)
  : list Assignment :=
  List.filter (keep filters) allAssignments.

Definition paginatedAssignments (filteredAssignments : list Assignment)
    (page rowsPerPage : nat) : list Assignment :=
  let start := page * rowsPerPage in
  let finish := start + rowsPerPage in
  JS.slice filteredAssignments (Z.of_nat start) (Z.of_nat finish).

(** The rows of the table body: [paginatedAssignments.map(...)]. *)
Definition rows (s : State) : list Assignment :=
  paginatedAssignments (filteredAssignments (allAssignments s) (filters s))
    (page s) (rowsPerPage s).

(** The parameter shadows the state cell of the same name, so the spread
    copies nothing but [base_id]. *)
Definition handleFiltersChange (s : State) (filters : FilterBar.Selection) : State :=
  setFilters (mkFilters (FilterBar.base_id filters) "" "" "") s.

(** The "New Assignment" button above the table: rendered for everyone. *)
Definition newAssignmentButton (user : option AuthContext.User) : bool := true.

(** The "Actions" cell of a row. *)
Definition rowActions (user : option AuthContext.User) (assignment : Assignment)
  : list IconButton :=
  ([ mkIconButton Edit false;
     mkIconButton Delete
       (JS.strict_eq (AuthContext.role_of user) "logistics_officer") ]
   ++ JS.render_if (negb (String.eqb (status assignment) "expended"))
        [ mkIconButton Expend false ])%list.

End Assignments.

(** ** pages/Expenditures.tsx *)

Module Expenditures.

Record Expenditure := mkExpenditure {
  id : string;
  asset_name : string;
  base_id : string;
  quantity : Z;
  expenditure_date : string;
  reason : string
}.

Record Filters := mkFilters {
  f_base_id : string;
  f_start_date : string;
  f_end_date : string
}.

Record State := mkState {
  expenditures : list Expenditure;
  loading : bool;
  error : string;
  page : nat;
  rowsPerPage : nat;
  total : nat;
  filters : Filters
}.

Definition setExpenditures (v : list Expenditure) (s : State) : State :=
  mkState v (loading s) (error s) (page s) (rowsPerPage s) (total s) (filters s).
Definition setLoading (v : bool) (s : State) : State :=
  mkState (expenditures s) v (error s) (page s) (rowsPerPage s) (total s) (filters s).
Definition setError (v : string) (s : State) : State :=
  mkState (expenditures s) (loading s) v (page s) (rowsPerPage s) (total s) (filters s).
Definition setPage (v : nat) (s : State) : State :=
  mkState (expenditures s) (loading s) (error s) v (rowsPerPage s) (total s) (filters s).
Definition setRowsPerPage (v : nat) (s : State) : State :=
  mkState (expenditures s) (loading s) (error s) (page s) v (total s) (filters s).
Definition setTotal (v : nat) (s : State) : State :=
  mkState (expenditures s) (loading s) (error s) (page s) (rowsPerPage s) v (filters s).
Definition setFilters (v : Filters) (s : State) : State :=
  mkState (expenditures s) (loading s) (error s) (page s) (rowsPerPage s) (total s) v.

Definition initial : State := mkState [] true "" 0 10 0 (mkFilters "" "" "").

Definition fetchExpenditures (s : State) (response : Settled (list Expenditure * nat))
  : State :=
  let s1 := setLoading true s in
  let s2 := match response with
            | Resolved (data, pagination_total) =>
                setTotal pagination_total (setExpenditures data s1)
            | Rejected err =>
                setError
                  (JS.or_else (response_data_error err) "Failed to fetch expenditures") s1
            end in
  setLoading false s2.

Definition handleFiltersChange (s : State) (filters : FilterBar.Selection) : State :=
  let s1 := setFilters
              (mkFilters (JS.or_else (Some (FilterBar.base_id filters)) "") "" "") s in
  setPage 0 s1.

End Expenditures.

(** ** Requests a handler issues *)

Inductive Method := GET | POST | PUT | DELETE.

(** The path is relative to [process.env.REACT_APP_API_URL]. *)
Record Request := mkRequest {
  method : Method;
  path : string
}.

(** ** pages/Login.tsx *)

Module Login.

Record State := mkState {
  email : string;
  password : string;
  error : string;
  loading : bool
}.

Definition setError (v : string) (s : State) : State :=
  mkState (email s) (password s) v (loading s).
Definition setLoading (v : bool) (s : State) : State :=
  mkState (email s) (password s) (error s) v.

Definition initial : State := mkState "" "" "" false.

(** [err.message] of what [login] throws.  [login] only throws
    [new Error(message)]; the message text of a raw axios error is not part
    of [AxiosError]. *)
Definition message (thrown : AuthContext.Thrown) : option string :=
  match thrown with
  | AuthContext.ErrorMessage m => Some m
  | AuthContext.AxiosFailure _ => None
  end.

(** The third component tells whether [navigate('/dashboard')] ran. *)
Definition handleSubmit (s : State) (auth : AuthContext.State)
    (response : Settled AuthContext.LoginData)
  : State * AuthContext.State * bool :=
  let s1 := setLoading true (setError "" s) in
  match AuthContext.login auth response with
  | (auth', None) => (setLoading false s1, auth', true)
  | (auth', Some err) =>
      (setLoading false (setError (JS.or_else (message err) "Login failed") s1),
       auth', false)
  end.

(** [disabled] of the "Sign In" button. *)
Definition signInDisabled (s : State) : bool :=
  loading s || negb (JS.truthy (email s)) || negb (JS.truthy (password s)).

End Login.

(** ** App.tsx *)

Module App.

Inductive Rendered := Spinner | NavigateToLogin | Children.

Definition ProtectedRoute (auth : AuthContext.State) : Rendered :=
  if AuthContext.loading auth then Spinner
  else match AuthContext.user auth with
       | None => NavigateToLogin
       | Some _ => Children
       end.

End App.

(** ** components/FilterBar.tsx: the selected base *)

Module FilterBarState.

(** [useState(initialFilterValues?.base_id || '')]. *)
Definition initialSelectedBase (initialFilterValues : option FilterBar.Selection)
  : string :=
  JS.or_else (FilterBar.base_id <$> initialFilterValues) "".

(** The effect on [[user?.role, user?.base_id, selectedBase]]: "Set initial
    base for base commanders and logistics officers". *)
Definition preselect (user : option AuthContext.User) (selectedBase : string) : string :=
  match AuthContext.base_id_of user with
  | Some base_id =>
      if (JS.strict_eq (AuthContext.role_of user) "base_commander"
          || JS.strict_eq (AuthContext.role_of user) "logistics_officer")
         && JS.truthy base_id && negb (JS.truthy selectedBase)
      then base_id
      else selectedBase
  | None => selectedBase
  end.

(** [handleFilterSubmit]: the selection stays, its value is passed on. *)
Definition handleFilterSubmit (selectedBase : string) : string * FilterBar.Selection :=
  (selectedBase, FilterBar.handleFilterSubmit selectedBase).

(** [handleClearFilters]: the selection is emptied and '' is passed on. *)
Definition handleClearFilters (selectedBase : string) : string * FilterBar.Selection :=
  ("", FilterBar.handleClearFilters).

End FilterBarState.

(** ** The inline handlers of [TablePagination] on the client-side lists *)

Module TablePagination.

Definition assets_onPageChange (s : Assets.State) (newPage : nat) : Assets.State :=
  Assets.setPage newPage s.
Definition assets_onRowsPerPageChange (s : Assets.State) (value : nat) : Assets.State :=
  Assets.setPage 0 (Assets.setRowsPerPage value s).

Definition purchases_onPageChange (s : Purchases.State) (newPage : nat)
  : Purchases.State :=
  Purchases.setPage newPage s.
Definition purchases_onRowsPerPageChange (s : Purchases.State) (value : nat)
  : Purchases.State :=
  Purchases.setPage 0 (Purchases.setRowsPerPage value s).

Definition assignments_onPageChange (s : Assignments.State) (newPage : nat)
  : Assignments.State :=
  Assignments.setPage newPage s.
Definition assignments_onRowsPerPageChange (s : Assignments.State) (value : nat)
  : Assignments.State :=
  Assignments.setPage 0 (Assignments.setRowsPerPage value s).

End TablePagination.

(** ** The query strings of the server-side lists *)

Module Query.

(** [if (value) params.append(key, value)] on a [URLSearchParams], kept as
    the list of its entries in insertion order. *)
Definition append_if (key value : string) (params : list (string * string))
  : list (string * string) :=
  if JS.truthy value then (params ++ [(key, value)])%list else params.

(** The parameters [fetchTransfers] builds; numbers are written in decimal. *)
Definition transfers (s : Transfers.State) : list (string * string) :=
  let f := Transfers.filters s in
  let params := [("page", pretty (Transfers.page s + 1)%nat);
                 ("limit", pretty (Transfers.rowsPerPage s))] in
  append_if "end_date" (Transfers.f_end_date f)
    (append_if "start_date" (Transfers.f_start_date f)
       (append_if "status" (Transfers.f_status f)
          (append_if "asset_name" (Transfers.f_asset_name f)
             (append_if "to_base_id" (Transfers.f_to_base_id f)
                (append_if "from_base_id" (Transfers.f_from_base_id f) params))))).

(** The parameters [fetchExpenditures] builds. *)
Definition expenditures (s : Expenditures.State) : list (string * string) :=
  let f := Expenditures.filters s in
  let params := [("page", pretty (Expenditures.page s + 1)%nat);
                 ("limit", pretty (Expenditures.rowsPerPage s))] in
  append_if "end_date" (Expenditures.f_end_date f)
    (append_if "start_date" (Expenditures.f_start_date f)
       (append_if "base_id" (Expenditures.f_base_id f) params)).

Section Requests.
(** [URLSearchParams.prototype.toString], which the template string calls
    on [params]. *)
Variable serialize : list (string * string) -> string.

(** The GET that [fetchTransfers] sends for the page, page size and
    criteria of the state it was created in. *)
Definition transfersRequest (s : Transfers.State) : Request :=
  mkRequest GET ("/transfers?" ++ serialize (transfers s)).

(** The GET that [fetchExpenditures] sends. *)
Definition expendituresRequest (s : Expenditures.State) : Request :=
  mkRequest GET ("/expenditures?" ++ serialize (expenditures s)).
End Requests.

End Query.

(** ** Mutations of the list pages *)

(** Each handler takes what [window.confirm] or [prompt] returned and what
    its request settles to, and gives the page state and the requests
    issued, in order.  A reload started after a success has set [loading]
    and sent its GET; its own outcome is handled by the page's fetcher. *)

Module Mutations.

Section ServerSideLists.
(** [URLSearchParams.prototype.toString]. *)
Variable serialize : list (string * string) -> string.

Definition transfers_handleApproveTransfer (s : Transfers.State) (id : string)
    (response : Settled unit) : Transfers.State * list Request :=
  let request := mkRequest PUT ("/transfers/" ++ id ++ "/approve") in
  match response with
  | Resolved _ =>
      (Transfers.setLoading true s, [request; Query.transfersRequest serialize s])
  | Rejected err =>
      (Transfers.setError
         (JS.or_else (response_data_error err) "Failed to approve transfer") s,
       [request])
  end.

(** [notes] is what [prompt] returned: [None] when it was cancelled. *)
Definition transfers_handleRejectTransfer (s : Transfers.State) (id : string)
    (notes : option string) (response : Settled unit)
  : Transfers.State * list Request :=
  let request := mkRequest PUT ("/transfers/" ++ id ++ "/reject") in
  match response with
  | Resolved _ =>
      (Transfers.setLoading true s, [request; Query.transfersRequest serialize s])
  | Rejected err =>
      (Transfers.setError
         (JS.or_else (response_data_error err) "Failed to reject transfer") s,
       [request])
  end.

Definition transfers_handleDeleteTransfer (s : Transfers.State) (id : string)
    (confirmed : bool) (response : Settled unit) : Transfers.State * list Request :=
  if confirmed then
    let request := mkRequest DELETE ("/transfers/" ++ id) in
    match response with
    | Resolved _ =>
        (Transfers.setLoading true s, [request; Query.transfersRequest serialize s])
    | Rejected err =>
        (Transfers.setError
           (JS.or_else (response_data_error err) "Failed to delete transfer") s,
         [request])
    end
  else (s, []).

Definition expenditures_handleDeleteExpenditure (s : Expenditures.State) (id : string)
    (confirmed : bool) (response : Settled unit)
  : Expenditures.State * list Request :=
  if confirmed then
    let request := mkRequest DELETE ("/expenditures/" ++ id) in
    match response with
    | Resolved _ =>
        (Expenditures.setLoading true s,
         [request; Query.expendituresRequest serialize s])
    | Rejected err =>
        (Expenditures.setError
           (JS.or_else (response_data_error err) "Failed to delete expenditure") s,
         [request])
    end
  else (s, []).

End ServerSideLists.

Definition assets_handleDelete (s : Assets.State) (id : string)
    (confirmed : bool) (response : Settled unit) : Assets.State * list Request :=
  if confirmed then
    let request := mkRequest DELETE ("/assets/" ++ id) in
    match response with
    | Resolved _ =>
        (Assets.setLoading true s, [request; mkRequest GET "/assets?limit=1000"])
    | Rejected err =>
        (Assets.setError
           (JS.or_else (response_data_error err) "Failed to delete asset") s,
         [request])
    end
  else (s, []).

Definition purchases_handleDelete (s : Purchases.State) (id : string)
    (confirmed : bool) (response : Settled unit) : Purchases.State * list Request :=
  if confirmed then
    let request := mkRequest DELETE ("/purchases/" ++ id) in
    match response with
    | Resolved _ =>
        (Purchases.setLoading true s, [request; mkRequest GET "/purchases?limit=1000"])
    | Rejected err =>
        (Purchases.setError
           (JS.or_else (response_data_error err) "Failed to delete purchase") s,
         [request])
    end
  else (s, []).

Definition assignments_handleDelete (s : Assignments.State) (id : string)
    (confirmed : bool) (response : Settled unit) : Assignments.State * list Request :=
  if confirmed then
    let request := mkRequest DELETE ("/assignments/" ++ id) in
    match response with
    | Resolved _ =>
        (Assignments.setLoading true s,
         [request; mkRequest GET "/assignments?limit=1000"])
    | Rejected err =>
        (Assignments.setError
           (JS.or_else (response_data_error err) "Failed to delete assignment") s,
         [request])
    end
  else (s, []).

End Mutations.

(** ** pages/Transfers.tsx: the create/edit dialog *)

Module TransfersDialog.

Record CreateTransferForm := mkForm {
  asset_name : string;
  from_base_id : string;
  to_base_id : string;
  quantity : Z;
  transfer_date : string;
  notes : string
}.

(** [interface Asset] of this page. *)
Record Asset := mkAsset {
  id : string;
  name : string;
  base_id : string;
  asset_quantity : Z;
  available_quantity : Z
}.

Record Dialog := mkDialog {
  openDialog : bool;
  editingTransfer : option Transfers.Transfer;
  formData : CreateTransferForm;
  assets : list Asset
}.

Definition emptyForm : CreateTransferForm := mkForm "" "" "" 0 "" "".

Definition initial : Dialog := mkDialog false None emptyForm [].

Definition resetForm (d : Dialog) : Dialog :=
  mkDialog (openDialog d) (editingTransfer d) emptyForm (assets d).

Definition handleCloseDialog (s : Transfers.State) (d : Dialog)
  : Transfers.State * Dialog :=
  (Transfers.setError "" s, mkDialog false None emptyForm (assets d)).

(** "Filter assets based on selected from_base_id". *)
Definition filteredAssets (d : Dialog) : list Asset :=
  List.filter
    (fun asset => negb (JS.truthy (from_base_id (formData d)))
                  || String.eqb (base_id asset) (from_base_id (formData d)))
    (assets d).

Definition selectedAsset (d : Dialog) : option Asset :=
  List.find
    (fun asset => String.eqb (name asset) (asset_name (formData d))
                  && String.eqb (base_id asset) (from_base_id (formData d)))
    (assets d).

Definition maxQuantity (d : Dialog) : Z :=
  match selectedAsset d with
  | Some asset => available_quantity asset
  | None => 0
  end.

(** The input handler of the quantity field: [parseInt(value) || 0], with
    [None] for a value that does not parse. *)
Definition quantityInput (parsed : option Z) : Z :=
  match parsed with
  | Some n => n
  | None => 0
  end.

(** [!formData.from_base_id || ... || !formData.transfer_date]. *)
Definition missingField (f : CreateTransferForm) : bool :=
  negb (JS.truthy (from_base_id f)) || negb (JS.truthy (to_base_id f))
  || negb (JS.truthy (asset_name f)) || (quantity f =? 0)%Z
  || negb (JS.truthy (transfer_date f)).

(** [disabled] of the dialog's submit button. *)
Definition submitDisabled (d : Dialog) : bool :=
  missingField (formData d) || (maxQuantity d <? quantity (formData d))%Z.

(** The [onClick] of the submit button, in create and in edit mode alike;
    [serialize] is [URLSearchParams.prototype.toString]. *)
Definition handleCreateTransfer (serialize : list (string * string) -> string)
    (s : Transfers.State) (d : Dialog)
    (response : Settled unit) : Transfers.State * Dialog * list Request :=
  if missingField (formData d) then
    (Transfers.setError "Please fill in all required fields" s, d, [])
  else if (quantity (formData d) <=? 0)%Z then
    (Transfers.setError "Quantity must be greater than 0" s, d, [])
  else
    let request := mkRequest POST "/transfers" in
    match response with
    | Resolved _ =>
        (Transfers.setError "" (Transfers.setLoading true s),
         resetForm (mkDialog false (editingTransfer d) (formData d) (assets d)),
         [request; Query.transfersRequest serialize s])
    | Rejected err =>
        (Transfers.setError
           (JS.or_else (response_data_error err) "Failed to create transfer") s,
         d, [request])
    end.

End TransfersDialog.

(** ** pages/Assets.tsx: the edit dialog *)

Module AssetsDialog.

Record CreateAssetForm := mkForm {
  name : string;
  base_id : string;
  quantity : Z
}.

Record Dialog := mkDialog {
  openDialog : bool;
  editingAsset : option Assets.Asset;
  formData : CreateAssetForm
}.

Definition initial : Dialog := mkDialog false None (mkForm "" "" 1).

Definition handleOpenDialog (d : Dialog) (asset : option Assets.Asset) : Dialog :=
  match asset with
  | Some a =>
      mkDialog true (Some a) (mkForm (Assets.name a) (Assets.base_id a) (Assets.quantity a))
  | None => mkDialog true None (mkForm "" "" 1)
  end.

Definition handleCloseDialog (d : Dialog) : Dialog :=
  mkDialog false None (formData d).

(** The input handler of the quantity field: [parseInt(value) || 1]. *)
Definition quantityInput (parsed : option Z) : Z :=
  match parsed with
  | Some n => if (n =? 0)%Z then 1%Z else n
  | None => 1%Z
  end.

(** [disabled] of the "Save" button. *)
Definition saveDisabled (d : Dialog) : bool :=
  negb (JS.truthy (name (formData d))) || negb (JS.truthy (base_id (formData d)))
  || (quantity (formData d) <? 1)%Z.

Definition handleSubmit (s : Assets.State) (d : Dialog) (response : Settled unit)
  : Assets.State * Dialog * list Request :=
  let request := match editingAsset d with
                 | Some a => mkRequest PUT ("/assets/" ++ Assets.id a)
                 | None => mkRequest POST "/assets"
                 end in
  match response with
  | Resolved _ =>
      (Assets.setLoading true s, handleCloseDialog d,
       [request; mkRequest GET "/assets?limit=1000"])
  | Rejected err =>
      (Assets.setError (JS.or_else (response_data_error err) "Failed to save asset") s,
       d, [request])
  end.

End AssetsDialog.

(** ** pages/Assignments.tsx: the create/edit and expend dialogs *)

Module AssignmentsDialog.

(** [interface Asset] and [interface Personnel] of this page. *)
Record Asset := mkAsset {
  asset_id : string;
  asset_name : string;
  asset_base_id : string;
  available_quantity : Z
}.

Record Personnel := mkPersonnel {
  personnel_id : string;
  first_name : string;
  last_name : string;
  rank : string;
  personnel_base_id : string
}.

Record CreateAssignmentForm := mkForm {
  f_asset_id : string;
  f_personnel_id : string;
  f_base_id : string;
  f_assignment_date : string;
  f_quantity : Z;
  f_notes : string
}.

Record Dialog := mkDialog {
  openDialog : bool;
  editingAssignment : option Assignments.Assignment;
  formData : CreateAssignmentForm;
  assets : list Asset;
  personnel : list Personnel;
  expendDialog : bool;
  expendingAssignment : option Assignments.Assignment;
  expendQuantity : Z;
  expendReason : string
}.

Definition emptyForm : CreateAssignmentForm := mkForm "" "" "" "" 1 "".

Definition initial : Dialog := mkDialog false None emptyForm [] [] false None 1 "".

Definition handleCloseDialog (d : Dialog) : Dialog :=
  mkDialog false None emptyForm (assets d) (personnel d)
    (expendDialog d) (expendingAssignment d) (expendQuantity d) (expendReason d).

Section WithUser.
(** [const { user } = useAuth()]. *)
Variable user : option AuthContext.User.

(** "Filter personnel by selected base". *)
Definition filteredPersonnel (d : Dialog) : list Personnel :=
  if JS.strict_eq (AuthContext.role_of user) "admin" then
    if JS.truthy (f_base_id (formData d)) then
      List.filter
        (fun person => String.eqb (personnel_base_id person) (f_base_id (formData d)))
        (personnel d)
    else personnel d
  else
    List.filter
      (fun person => JS.strict_eq (AuthContext.base_id_of user) (personnel_base_id person))
      (personnel d).

(** "Filter assets by selected base". *)
Definition filteredAssets (d : Dialog) : list Asset :=
  if JS.strict_eq (AuthContext.role_of user) "admin" then
    if JS.truthy (f_base_id (formData d)) then
      List.filter
        (fun asset => String.eqb (asset_base_id asset) (f_base_id (formData d)))
        (assets d)
    else assets d
  else
    List.filter
      (fun asset => JS.strict_eq (AuthContext.base_id_of user) (asset_base_id asset))
      (assets d).

(** The body of the request [handleSubmit] sends. *)
Record Payload := mkPayload {
  p_asset_name : string;
  p_assigned_to : string;
  p_base_id : option string;
  p_assignment_date : string;
  p_quantity : Z;
  p_notes : string
}.

(** [parseInt(formData.quantity.toString()) || 1] on the integer the form
    holds. *)
Definition submittedQuantity (f : CreateAssignmentForm) : Z :=
  if (f_quantity f =? 0)%Z then 1%Z else f_quantity f.

Definition handleSubmit (s : Assignments.State) (d : Dialog) (response : Settled unit)
  : Assignments.State * Dialog * list (Request * Payload) * list Request :=
  let f := formData d in
  match List.find (fun asset => String.eqb (asset_id asset) (f_asset_id f)) (assets d) with
  | None => (Assignments.setError "Selected asset not found" s, d, [], [])
  | Some selectedAsset =>
      let quantity := submittedQuantity f in
      if (quantity <=? 0)%Z then
        (Assignments.setError "Quantity must be greater than 0" s, d, [], [])
      else
        let payload :=
          mkPayload (asset_name selectedAsset) (f_personnel_id f)
            (if negb (JS.strict_eq (AuthContext.role_of user) "admin")
             then AuthContext.base_id_of user
             else Some (f_base_id f))
            (f_assignment_date f) quantity (f_notes f) in
        let request :=
          match editingAssignment d with
          | Some a => mkRequest PUT ("/assignments/" ++ Assignments.id a)
          | None => mkRequest POST "/assignments"
          end in
        match response with
        | Resolved _ =>
            (Assignments.setLoading true s, handleCloseDialog d,
             [(request, payload)], [mkRequest GET "/assignments?limit=1000"])
        | Rejected err =>
            (Assignments.setError
               (JS.or_else (response_data_error err) "Failed to save assignment") s,
             d, [(request, payload)], [])
        end
  end.

End WithUser.

Definition handleExpend (d : Dialog) (assignment : Assignments.Assignment) : Dialog :=
  mkDialog (openDialog d) (editingAssignment d) (formData d) (assets d) (personnel d)
    true (Some assignment) 1 "".

Definition handleExpendCancel (d : Dialog) : Dialog :=
  mkDialog (openDialog d) (editingAssignment d) (formData d) (assets d) (personnel d)
    false None (expendQuantity d) "".

Section Trim.
(** Membership in the code points [String.prototype.trim] strips. *)
Variable isWhiteSpace : ascii -> bool.

Fixpoint trimStart (cs : list ascii) : list ascii :=
  match cs with
  | c :: cs' => if isWhiteSpace c then trimStart cs' else cs
  | [] => []
  end.

Definition trim (s : string) : string :=
  string_of_list_ascii
    (rev (trimStart (rev (trimStart (list_ascii_of_string s))))).

(** [disabled] of the "Expend Asset" button. *)
Definition expendDisabled (d : Dialog) : bool :=
  negb (JS.truthy (trim (expendReason d))).

(** The second component is the body [{quantity, reason}] of the request. *)
Definition handleExpendSubmit (s : Assignments.State) (d : Dialog)
    (response : Settled unit)
  : Assignments.State * Dialog * list (Request * (Z * string)) * list Request :=
  match expendingAssignment d with
  | None => (s, d, [], [])
  | Some a =>
      if negb (JS.truthy (trim (expendReason d))) then
        (Assignments.setError "Reason is required for expenditure" s, d, [], [])
      else
        let request :=
          (mkRequest PUT ("/assignments/" ++ Assignments.id a ++ "/expend"),
           (expendQuantity d, expendReason d)) in
        match response with
        | Resolved _ =>
            (Assignments.setLoading true s,
             mkDialog (openDialog d) (editingAssignment d) (formData d) (assets d)
               (personnel d) false None (expendQuantity d) "",
             [request], [mkRequest GET "/assignments?limit=1000"])
        | Rejected err =>
            (Assignments.setError
               (JS.or_else (response_data_error err) "Failed to expend assignment") s,
             d, [request], [])
        end
  end.

End Trim.

End AssignmentsDialog.

(** ** Sample data *)

Module Sample.

Definition admin : AuthContext.User :=
  AuthContext.mkUser "u1" "admin" "admin" None true.
Definition price : AuthContext.User :=
  AuthContext.mkUser "u2" "price" "base_commander" (Some "B1") true.
Definition laswell : AuthContext.User :=
  AuthContext.mkUser "u3" "laswell" "logistics_officer" (Some "B1") true.

Definition pendingTransfer : Transfers.Transfer :=
  Transfers.mkTransfer "t1" "Rifle" "B1" "B2" 5 "pending" "2024-01-10".
Definition approvedTransfer : Transfers.Transfer :=
  Transfers.mkTransfer "t2" "Rifle" "B1" "B2" 5 "approved" "2024-01-11".

Definition asset (n : string) : Assets.Asset :=
  Assets.mkAsset n n "B1" "Fort Bragg" "available" 10 10.
Definition assets : list Assets.Asset := [asset "a"; asset "b"; asset "c"].

Definition assignment (n : string) : Assignments.Assignment :=
  Assignments.mkAssignment n "a" "Rifle" "p1" "B1" "2024-01-10" "active" 2 0.
Definition assignments : list Assignments.Assignment :=
  [assignment "g1"; assignment "g2"; assignment "g3"; assignment "g4"].

Definition purchase (n : string) : Purchases.Purchase :=
  Purchases.mkPurchase n "a" "B1" 3 "ACME" "2024-01-10" "pending".
Definition purchases : list Purchases.Purchase := [purchase "p1"].

(** [toLowerCase] on the ASCII letters. *)
Definition lowerAscii (c : ascii) : ascii :=
  let n := nat_of_ascii c in
  if ((65 <=? n) && (n <=? 90))%nat then ascii_of_nat (n + 32) else c.
Fixpoint toLowerCase (s : string) : string :=
  match s with
  | EmptyString => EmptyString
  | String c s' => String (lowerAscii c) (toLowerCase s')
  end.

Definition rifle : Assets.Asset :=
  Assets.mkAsset "a1" "M4 Rifle" "B1" "Fort Bragg" "available" 10 10.
Definition truck : Assets.Asset :=
  Assets.mkAsset "a2" "Cargo Truck" "B2" "Fort Hood" "assigned" 4 1.

(** A browser that kept the tokens of an earlier visit. *)
Definition persisted : gmap string string :=
  <["refreshToken" := "r0"]> (<["token" := "t0"]> ∅).

Definition loginData : AuthContext.LoginData :=
  AuthContext.mkLoginData price "t1" "r1".

Definition unauthorized : AxiosError := mkAxiosError (Some "Invalid token") (Some 401).

(** Mounted with a valid token, then logged in again. *)
Definition session : AuthContext.State :=
  AuthContext.call (AuthContext.mount persisted (Resolved price))
    (AuthContext.CallLogin (Resolved loginData)).

(** The provider has mounted over a stale token and its profile request
    is still pending when a login completes. *)
Definition loggedInBeforeCheckSettles : AuthContext.State :=
  fst (AuthContext.login
         (AuthContext.configureAxios (AuthContext.initial persisted))
         (Resolved loginData)).

Definition data : DataContext.State :=
  DataContext.mkState
    [DataContext.mkBase "B1" "Fort Bragg" "FB"]
    [DataContext.mkAssetType "k1" "Weapon"]
    [DataContext.mkAsset "a" "Rifle" "B1" 10 10 0 "available"]
    false None.

End Sample.

(** ** Vocabulary of the statements *)

(** The pages [pageOf 0], ..., [pageOf (n - 1)] of a list. *)
Definition pages {A : Type} (pageOf : nat -> list A) (n : nat) : list (list A) :=
  map pageOf (seq 0 n).

(** Row [i] of page [p] is row [p * size + i] of the list, and a page has
    no row from [size] on. *)
Definition page_rows {A : Type} (pageOf : nat -> list A) (size : nat) (l : list A)
  : Prop :=
  forall p i : nat,
    pageOf p !! i = if (i <? size)%nat then l !! (p * size + i)%nat else None.

(** [n] pages of [size] rows split the list: every page is the matching
    window of the list, rows of different pages are different rows of the
    list, the pages laid end to end give the list back, and their lengths add
    up to its length. *)
Definition partitions {A : Type} (pageOf : nat -> list A) (size n : nat) (l : list A)
  : Prop :=
  page_rows pageOf size l
  /\ (forall p q i j : nat,
        p <> q -> is_Some (pageOf p !! i) -> is_Some (pageOf q !! j) ->
        (p * size + i <> q * size + j)%nat)
  /\ concat (pages pageOf n) = l
  /\ list_sum (map (@length A) (pages pageOf n)) = length l.

(** The string shown for a failed request: the server's message when the
    error carries a non-empty one, the fallback otherwise. *)
Definition error_from (payload : option string) (fallback shown : string) : Prop :=
  (forall m, payload = Some m -> m <> "" -> shown = m)
  /\ (payload = None \/ payload = Some "" -> shown = fallback).

(** The default Authorization header, when set, carries the stored token,
    and a non-empty stored token is always the one in the header. *)
Definition header_matches_token (s : AuthContext.State) : Prop :=
  (forall h, AuthContext.headers s !! "Authorization" = Some h ->
             exists t, AuthContext.getItem "token" s = Some t /\ h = AuthContext.bearer t)
  /\ (forall t, AuthContext.getItem "token" s = Some t -> JS.truthy t = true ->
                AuthContext.headers s !! "Authorization" = Some (AuthContext.bearer t)).

(** What a client-side list shows: the window of the filtered collection
    at the current page, never more than a page of rows, every row taken
    from the loaded collection in its order and passing the criteria, and
    nothing at all once the page starts past the end. *)
Definition shows_page {A : Type} (rows filtered all : list A) (keep : A -> bool)
    (page size : nat) : Prop :=
  rows = take size (drop (page * size) filtered)
  /\ length rows <= size
  /\ sublist rows all
  /\ (forall x, In x rows -> In x all /\ keep x = true)
  /\ (length filtered <= page * size -> rows = []).

(** The requests of a mutation: the mutation itself and, when it
    succeeded, the reload of the list. *)
Definition with_reload (request reload : Request) (response : Settled unit)
  : list Request :=
  request :: match response with
             | Resolved _ => [reload]
             | Rejected _ => []
             end.

(** * Properties *)

Section StrictEq.

Lemma strict_eq_true (x : option string) (s : string) :
  JS.strict_eq x s = true <-> x = Some s.
Proof.
  destruct x as [v|]; simpl.
  - rewrite String.eqb_eq. split; congruence.
  - split; discriminate.
Qed.

Lemma strict_eq_false (x : option string) (s : string) :
  JS.strict_eq x s = false <-> x <> Some s.
Proof.
  rewrite <- strict_eq_true. destruct (JS.strict_eq x s); split; congruence.
Qed.

End StrictEq.

(** ** Permission predicates *)

Section Permissions.
Import AuthContext.

Lemma eqb_pending (s : string) : String.eqb s "pending" = true <-> s = "pending".
Proof. apply String.eqb_eq. Qed.

(** A principal's role decides which branch of the predicates runs. *)
Lemma role_cases (u : User) :
  role u = "admin"
  \/ (role u <> "admin" /\ role u = "base_commander")
  \/ (role u <> "admin" /\ role u <> "base_commander").
Proof.
  destruct (String.eqb_spec (role u) "admin") as [Ha|Ha]; [by left|right].
  destruct (String.eqb_spec (role u) "base_commander") as [Hb|Hb]; [by left|by right].
Qed.

Lemma role_admin (u : User) :
  role u = "admin" -> JS.strict_eq (role_of (Some u)) "admin" = true.
Proof. intros H. by apply strict_eq_true; simpl; rewrite H. Qed.

Lemma role_not (u : User) (r : string) :
  role u <> r -> JS.strict_eq (role_of (Some u)) r = false.
Proof. intros H. apply strict_eq_false. simpl. congruence. Qed.

Lemma role_commander (u : User) :
  role u = "base_commander" ->
  JS.strict_eq (role_of (Some u)) "admin" = false
  /\ JS.strict_eq (role_of (Some u)) "base_commander" = true.
Proof.
  intros H. split.
  - apply role_not. rewrite H. discriminate.
  - apply strict_eq_true. simpl. by rewrite H.
Qed.

Lemma base_matches (u : User) (b : string) :
  JS.strict_eq (base_id_of (Some u)) b = true <-> base_id u = Some b.
Proof. apply strict_eq_true. Qed.

(** C1. [canEdit], for a transfer and for a purchase and any authenticated
    principal: an admin may always edit; a base commander may edit exactly
    the pending records that reference the commander's base ([from_base_id]
    or [to_base_id] of a transfer, [base_id] of a purchase); every other
    role may not edit. *)
Theorem canEdit_truth_table
    (u : User) (t : Transfers.Transfer) (p : Purchases.Purchase) :
  (role u = "admin" ->
     Transfers.canEdit (Some u) t = true /\ Purchases.canEdit (Some u) p = true)
  /\ (role u = "base_commander" ->
        (Transfers.canEdit (Some u) t = true <->
           Transfers.status t = "pending"
           /\ (base_id u = Some (Transfers.from_base_id t)
               \/ base_id u = Some (Transfers.to_base_id t)))
        /\ (Purchases.canEdit (Some u) p = true <->
              Purchases.status p = "pending"
              /\ base_id u = Some (Purchases.base_id p)))
  /\ (role u <> "admin" -> role u <> "base_commander" ->
        Transfers.canEdit (Some u) t = false /\ Purchases.canEdit (Some u) p = false).
Proof.
  unfold Transfers.canEdit, Purchases.canEdit.
  split; [|split].
  - intros Ha. by rewrite (role_admin u Ha).
  - intros Hc. destruct (role_commander u Hc) as [-> ->].
    rewrite !andb_true_iff, orb_true_iff, !base_matches, !eqb_pending. tauto.
  - intros Ha Hc. by rewrite !role_not.
Qed.

(** C2. [canDelete], for a transfer and for a purchase and any
    authenticated principal: an admin may always delete; a base commander
    may delete exactly the records of the commander's base whose status is
    open (pending or rejected for a transfer, pending or cancelled for a
    purchase); every other role may not delete. *)
Theorem canDelete_truth_table
    (u : User) (t : Transfers.Transfer) (p : Purchases.Purchase) :
  (role u = "admin" ->
     Transfers.canDelete (Some u) t = true /\ Purchases.canDelete (Some u) p = true)
  /\ (role u = "base_commander" ->
        (Transfers.canDelete (Some u) t = true <->
           (Transfers.status t = "pending" \/ Transfers.status t = "rejected")
           /\ (base_id u = Some (Transfers.from_base_id t)
               \/ base_id u = Some (Transfers.to_base_id t)))
        /\ (Purchases.canDelete (Some u) p = true <->
              (Purchases.status p = "pending" \/ Purchases.status p = "cancelled")
              /\ base_id u = Some (Purchases.base_id p)))
  /\ (role u <> "admin" -> role u <> "base_commander" ->
        Transfers.canDelete (Some u) t = false
        /\ Purchases.canDelete (Some u) p = false).
Proof.
  unfold Transfers.canDelete, Purchases.canDelete.
  split; [|split].
  - intros Ha. by rewrite (role_admin u Ha).
  - intros Hc. destruct (role_commander u Hc) as [-> ->].
    rewrite !andb_true_iff, !orb_true_iff, !base_matches, !String.eqb_eq. tauto.
  - intros Ha Hc. by rewrite !role_not.
Qed.

End Permissions.

(** ** Action buttons *)

Section Affordances.
Import AuthContext.

Lemma render_if_In {A : Type} (c : bool) (xs : list A) (x : A) :
  In x (JS.render_if c xs) <-> c = true /\ In x xs.
Proof. destruct c; simpl; intuition congruence. Qed.

(** The approve button of a transfer row is gated by role at the call
    site and by [canApprove] for the record. *)
Lemma transfer_approve_offered (user : option User) (t : Transfers.Transfer) :
  In (button Approve) (default [] (Transfers.rowActions user t))
  <-> role_of user = Some "admin" /\ Transfers.canApprove t = true.
Proof.
  unfold Transfers.rowActions.
  destruct (JS.strict_eq (role_of user) "logistics_officer") eqn:Hl; simpl.
  - apply strict_eq_true in Hl. rewrite Hl. split; [tauto|]. intros [[=] _].
  - rewrite !in_app_iff, !render_if_In, andb_true_iff, strict_eq_true.
    unfold button. simpl. intuition congruence.
Qed.

Lemma purchase_approve_offered (user : option User) (p : Purchases.Purchase) :
  In (button Approve) (default [] (Purchases.rowActions user p))
  <-> role_of user = Some "admin" /\ Purchases.canApprove p = true.
Proof.
  unfold Purchases.rowActions.
  destruct (JS.strict_eq (role_of user) "logistics_officer") eqn:Hl; simpl.
  - apply strict_eq_true in Hl. rewrite Hl. split; [tauto|]. intros [[=] _].
  - rewrite !in_app_iff, !render_if_In, andb_true_iff, strict_eq_true.
    unfold button. simpl. intuition congruence.
Qed.

(** C3. [canApprove] holds of a transfer, and of a purchase, exactly when
    its status is 'pending'.  The predicate reads nothing but the record:
    the restriction to admins is made where the approve button is
    rendered, not inside the predicate. *)
Theorem canApprove_iff_pending
    (user : option User) (t : Transfers.Transfer) (p : Purchases.Purchase) :
  (Transfers.canApprove t = true <-> Transfers.status t = "pending")
  /\ (Purchases.canApprove p = true <-> Purchases.status p = "pending")
  /\ (In (button Approve) (default [] (Transfers.rowActions user t))
      <-> role_of user = Some "admin" /\ Transfers.status t = "pending")
  /\ (In (button Approve) (default [] (Purchases.rowActions user p))
      <-> role_of user = Some "admin" /\ Purchases.status p = "pending").
Proof.
  rewrite transfer_approve_offered, purchase_approve_offered.
  unfold Transfers.canApprove, Purchases.canApprove.
  rewrite !eqb_pending. tauto.
Qed.

Lemma assignment_row_In
    (user : option User) (a : Assignments.Assignment) (x : IconButton) :
  In x (Assignments.rowActions user a)
  <-> x = mkIconButton Edit false
      \/ x = mkIconButton Delete (JS.strict_eq (role_of user) "logistics_officer")
      \/ (x = mkIconButton Expend false /\ Assignments.status a <> "expended").
Proof.
  unfold Assignments.rowActions.
  rewrite in_app_iff, render_if_In, negb_true_iff. simpl.
  destruct (String.eqb_spec (Assignments.status a) "expended") as [He|He];
    intuition congruence.
Qed.

(** C10. The action cell of an assignment row does not consult the
    permission predicates: whatever the principal's role and base and the
    record's status and base, the edit button is rendered and enabled; the
    delete button is rendered, and disabled exactly for a
    logistics_officer; the expend button is rendered, enabled, exactly
    when the status is not 'expended'.  The cell holds no other button,
    and the "New Assignment" button is rendered for everyone. *)
Theorem assignment_actions_ungated
    (user : option User) (a : Assignments.Assignment) :
  In (mkIconButton Edit false) (Assignments.rowActions user a)
  /\ (forall b, In (mkIconButton Delete b) (Assignments.rowActions user a)
                <-> b = JS.strict_eq (role_of user) "logistics_officer")
  /\ (forall b, In (mkIconButton Delete b) (Assignments.rowActions user a)
                -> (b = true <-> role_of user = Some "logistics_officer"))
  /\ (forall b, In (mkIconButton Expend b) (Assignments.rowActions user a)
                <-> b = false /\ Assignments.status a <> "expended")
  /\ (forall x, In x (Assignments.rowActions user a)
                -> title x = Edit \/ title x = Delete \/ title x = Expend)
  /\ Assignments.newAssignmentButton user = true.
Proof.
  split; [|split; [|split; [|split; [|split]]]].
  - apply assignment_row_In. by left.
  - intros b. rewrite assignment_row_In. split.
    + intros [Hx|[Hx|[Hx _]]]; congruence.
    + intros ->. right. by left.
  - intros b. rewrite assignment_row_In, <- strict_eq_true.
    intros [Hx|[Hx|[Hx _]]]; try discriminate Hx.
    injection Hx as ->. tauto.
  - intros b. rewrite assignment_row_In. split.
    + intros [Hx|[Hx|[Hx Hs]]]; try discriminate Hx.
      injection Hx as ->. tauto.
    + intros [-> Hs]. right. by right.
  - intros x. rewrite assignment_row_In.
    intros [->|[->|[-> _]]]; simpl; tauto.
  - reflexivity.
Qed.

End Affordances.

(** ** Slicing and pages *)

Section Slicing.
Context {A : Type}.
Implicit Types (l : list A) (p n size i : nat).

(** On a range [start, start + n) of natural numbers, [slice] drops
    [start] rows and takes at most [n]. *)
Lemma slice_window l (start n : nat) :
  JS.slice l (Z.of_nat start) (Z.of_nat (start + n)) = take n (drop start l).
Proof.
  unfold JS.slice.
  destruct (Z.ltb_spec (Z.of_nat start) 0) as [Hneg|_]; [lia|].
  destruct (Z.ltb_spec (Z.of_nat (start + n)) 0) as [Hneg|_]; [lia|].
  destruct (Nat.le_gt_cases start (length l)) as [Hin|Hout].
  - replace (Z.to_nat (Z.min (Z.of_nat start) (Z.of_nat (length l)))) with start by lia.
    destruct (Nat.le_gt_cases (start + n) (length l)) as [Hfit|Hover].
    + f_equal. lia.
    + rewrite !take_ge; [done| |]; rewrite length_drop; lia.
  - rewrite (drop_ge l start) by lia.
    rewrite drop_ge by lia. by rewrite !take_nil.
Qed.

Lemma window_lookup l start n i :
  take n (drop start l) !! i = if (i <? n)%nat then l !! (start + i)%nat else None.
Proof.
  destruct (Nat.ltb_spec i n) as [Hlt|Hge].
  - by rewrite lookup_take_lt, lookup_drop.
  - by rewrite lookup_take_ge.
Qed.

(** The first [n] windows of width [size], laid end to end, are the first
    [n * size] rows. *)
Lemma windows_concat l size n :
  concat (pages (fun p => take size (drop (p * size) l)) n) = take (n * size) l.
Proof.
  unfold pages. induction n as [|n IH].
  - by rewrite take_0.
  - rewrite seq_S, map_app, concat_app, IH. simpl.
    rewrite app_nil_r, take_take_drop. f_equal. lia.
Qed.

(** Two rows on different pages sit at different rows of the list. *)
Lemma rows_apart size p q i j :
  p <> q -> i < size -> j < size -> p * size + i <> q * size + j.
Proof. intros Hpq Hi Hj. nia. Qed.

Section Pager.
(** Any function that computes its page with [slice] as the three list
    pages do. *)
Variable paginated : list A -> nat -> nat -> list A.
Hypothesis paginated_slice :
  forall l p size,
    paginated l p size
    = JS.slice l (Z.of_nat (p * size)) (Z.of_nat (p * size + size)).

Lemma paginated_window l p size :
  paginated l p size = take size (drop (p * size) l).
Proof. rewrite paginated_slice. apply slice_window. Qed.

Lemma paginated_rows l size :
  page_rows (fun p => paginated l p size) size l.
Proof. intros p i. rewrite paginated_window. apply window_lookup. Qed.

Lemma paginated_disjoint l size p q i j :
  p <> q ->
  is_Some (paginated l p size !! i) -> is_Some (paginated l q size !! j) ->
  p * size + i <> q * size + j.
Proof.
  intros Hpq [x Hx] [y Hy].
  rewrite (paginated_rows l size p i) in Hx.
  rewrite (paginated_rows l size q j) in Hy.
  destruct (Nat.ltb_spec i size); [|discriminate].
  destruct (Nat.ltb_spec j size); [|discriminate].
  by apply rows_apart.
Qed.

Lemma paginated_concat l size n :
  length l <= n * size ->
  concat (pages (fun p => paginated l p size) n) = l.
Proof.
  intros Hcover.
  transitivity (take (n * size) l); [|by apply take_ge].
  rewrite <- windows_concat. unfold pages. f_equal.
  apply map_ext. intros p. apply paginated_window.
Qed.

Lemma paginated_lengths l size n :
  length l <= n * size ->
  list_sum (map (@length A) (pages (fun p => paginated l p size) n)) = length l.
Proof.
  intros Hcover. rewrite <- length_concat. by rewrite paginated_concat.
Qed.

(** A page, paged again with the same size, is its own first page. *)
Lemma paginated_first_page l p size :
  paginated (paginated l p size) 0 size = paginated l p size.
Proof.
  rewrite (paginated_window (paginated l p size)).
  rewrite Nat.mul_0_l, drop_0. apply take_ge.
  rewrite paginated_window, length_take. lia.
Qed.
End Pager.

End Slicing.

Section Pagination.

Lemma paginated_partitions {A : Type} (paginated : list A -> nat -> nat -> list A)
    (l : list A) (size n : nat) :
  (forall l p size,
      paginated l p size
      = JS.slice l (Z.of_nat (p * size)) (Z.of_nat (p * size + size))) ->
  length l <= n * size ->
  partitions (fun p => paginated l p size) size n l.
Proof.
  intros Hslice Hcover. repeat split.
  - by apply paginated_rows.
  - intros p q i j. by apply paginated_disjoint.
  - by apply paginated_concat.
  - by apply paginated_lengths.
Qed.

(** C6. With a page size greater than 0 and enough pages to reach the end
    of the filtered list, the pages computed by [paginatedAssets],
    [paginatedAssignments] and [paginatedPurchases] split that list: page
    [p] holds the rows [p * size, p * size + size) of it, no row of the
    list is on two pages, the pages in order give the list back, and their
    lengths add up to its length; [length l] pages are always enough.  The
    rendered rows are a function of the collection, the criteria, the page
    and the page size alone, so computing them again from the same values
    gives the same slice. *)
Theorem pagination_partitions
    (size n : nat) (assets : list Assets.Asset)
    (assignments : list Assignments.Assignment)
    (purchases : list Purchases.Purchase) :
  0 < size ->
  length assets <= n * size ->
  length assignments <= n * size ->
  length purchases <= n * size ->
  (partitions (fun p => Assets.paginatedAssets assets p size) size n assets
   /\ concat (pages (fun p => Assets.paginatedAssets assets p size) (length assets))
      = assets)
  /\ (partitions (fun p => Assignments.paginatedAssignments assignments p size)
        size n assignments
      /\ concat (pages (fun p => Assignments.paginatedAssignments assignments p size)
                   (length assignments))
         = assignments)
  /\ (partitions (fun p => Purchases.paginatedPurchases purchases p size)
        size n purchases
      /\ concat (pages (fun p => Purchases.paginatedPurchases purchases p size)
                   (length purchases))
         = purchases)
  /\ (forall toLowerCase (s1 s2 : Assets.State),
        Assets.allAssets s1 = Assets.allAssets s2 ->
        Assets.filters s1 = Assets.filters s2 ->
        Assets.page s1 = Assets.page s2 ->
        Assets.rowsPerPage s1 = Assets.rowsPerPage s2 ->
        Assets.rows toLowerCase s1 = Assets.rows toLowerCase s2)
  /\ (forall s1 s2 : Assignments.State,
        Assignments.allAssignments s1 = Assignments.allAssignments s2 ->
        Assignments.filters s1 = Assignments.filters s2 ->
        Assignments.page s1 = Assignments.page s2 ->
        Assignments.rowsPerPage s1 = Assignments.rowsPerPage s2 ->
        Assignments.rows s1 = Assignments.rows s2)
  /\ (forall s1 s2 : Purchases.State,
        Purchases.allPurchases s1 = Purchases.allPurchases s2 ->
        Purchases.filters s1 = Purchases.filters s2 ->
        Purchases.page s1 = Purchases.page s2 ->
        Purchases.rowsPerPage s1 = Purchases.rowsPerPage s2 ->
        Purchases.rows s1 = Purchases.rows s2).
Proof.
  intros Hsize Ha Hg Hp.
  split; [|split; [|split; [|split; [|split]]]].
  - split.
    + by apply (paginated_partitions Assets.paginatedAssets).
    + apply (paginated_concat Assets.paginatedAssets); [done|nia].
  - split.
    + by apply (paginated_partitions Assignments.paginatedAssignments).
    + apply (paginated_concat Assignments.paginatedAssignments); [done|nia].
  - split.
    + by apply (paginated_partitions Purchases.paginatedPurchases).
    + apply (paginated_concat Purchases.paginatedPurchases); [done|nia].
  - intros lower s1 s2 Hall Hf Hpage Hrows. unfold Assets.rows. congruence.
  - intros s1 s2 Hall Hf Hpage Hrows. unfold Assignments.rows. congruence.
  - intros s1 s2 Hall Hf Hpage Hrows. unfold Purchases.rows. congruence.
Qed.

End Pagination.

(** ** Client-side filters *)

Section Filters.

Lemma filter_keeps_all {A : Type} (f : A -> bool) (l : list A) :
  (forall x, f x = true) -> List.filter f l = l.
Proof.
  intros Hall. induction l as [|x l IH]; simpl; [done|].
  by rewrite Hall, IH.
Qed.

(** [Array.prototype.filter] keeps the retained elements in source order. *)
Lemma filter_sublist {A : Type} (f : A -> bool) (l : list A) :
  sublist (List.filter f l) l.
Proof.
  induction l as [|x l IH]; simpl.
  - constructor.
  - destruct (f x); by constructor.
Qed.

Lemma assets_keep_empty toLowerCase (asset : Assets.Asset) :
  Assets.keep toLowerCase (Assets.mkFilters "" "" "") asset = true.
Proof. reflexivity. Qed.

Lemma assignments_keep_empty (assignment : Assignments.Assignment) :
  Assignments.keep (Assignments.mkFilters "" "" "" "") assignment = true.
Proof. reflexivity. Qed.

Lemma purchases_keep_empty (purchase : Purchases.Purchase) :
  Purchases.keep (Purchases.mkFilters "" "" "" "") purchase = true.
Proof. reflexivity. Qed.

(** C5. With every criterion empty, [filteredAssets],
    [filteredAssignments] and [filteredPurchases] return the full
    collection, element for element and in the original order.  For any
    criteria the result is determined by the collection and the criteria,
    it holds exactly the elements of the collection that pass the
    criteria, and it lists them in their source order. *)
Theorem filter_empty_identity_order_preserving
    (toLowerCase : string -> string)
    (assets : list Assets.Asset) (fa : Assets.Filters)
    (assignments : list Assignments.Assignment) (fg : Assignments.Filters)
    (purchases : list Purchases.Purchase) (fp : Purchases.Filters) :
  (Assets.filteredAssets toLowerCase assets (Assets.mkFilters "" "" "") = assets
   /\ Assignments.filteredAssignments assignments (Assignments.mkFilters "" "" "" "")
      = assignments
   /\ Purchases.filteredPurchases purchases (Purchases.mkFilters "" "" "" "")
      = purchases)
  /\ (sublist (Assets.filteredAssets toLowerCase assets fa) assets
      /\ sublist (Assignments.filteredAssignments assignments fg) assignments
      /\ sublist (Purchases.filteredPurchases purchases fp) purchases)
  /\ ((forall x, In x (Assets.filteredAssets toLowerCase assets fa)
                 <-> In x assets /\ Assets.keep toLowerCase fa x = true)
      /\ (forall x, In x (Assignments.filteredAssignments assignments fg)
                    <-> In x assignments /\ Assignments.keep fg x = true)
      /\ (forall x, In x (Purchases.filteredPurchases purchases fp)
                    <-> In x purchases /\ Purchases.keep fp x = true)).
Proof.
  unfold Assets.filteredAssets, Assignments.filteredAssignments,
    Purchases.filteredPurchases.
  split; [|split].
  - split; [|split]; apply filter_keeps_all.
    + apply assets_keep_empty.
    + apply assignments_keep_empty.
    + apply purchases_keep_empty.
  - split; [|split]; apply filter_sublist.
  - split; [|split]; intros x; apply filter_In.
Qed.

End Filters.

(** ** Filter changes and the page index *)

Section PageReset.

Lemma assets_filter_change_resets (s : Assets.State) (f : FilterBar.Selection) :
  Assets.page (Assets.handleFiltersChange s f) = 0.
Proof. reflexivity. Qed.

Lemma expenditures_filter_change_resets
    (s : Expenditures.State) (f : FilterBar.Selection) :
  Expenditures.page (Expenditures.handleFiltersChange s f) = 0.
Proof. reflexivity. Qed.

Lemma purchases_filter_change_keeps_page
    (s : Purchases.State) (f : FilterBar.Selection) :
  Purchases.page (Purchases.handleFiltersChange s f) = Purchases.page s.
Proof. reflexivity. Qed.

Lemma transfers_filter_change_keeps_page
    (s : Transfers.State) (f : FilterBar.Selection) :
  Transfers.page (Transfers.handleFiltersChange s f) = Transfers.page s.
Proof. reflexivity. Qed.

Lemma assignments_filter_change_keeps_page
    (s : Assignments.State) (f : FilterBar.Selection) :
  Assignments.page (Assignments.handleFiltersChange s f) = Assignments.page s.
Proof. reflexivity. Qed.

Lemma purchases_clear_filters_resets (s : Purchases.State) :
  Purchases.page (Purchases.handleClearFilters s) = 0.
Proof. reflexivity. Qed.

(** C4, at a failing input.  On the third page of the purchases, transfers
    and assignments lists, applying the base filter "B1" replaces the
    criteria and leaves the page index at 2 instead of resetting it to 0;
    the assets and expenditures lists do reset it. *)
Theorem filter_change_page_not_reset :
  let f := FilterBar.handleFilterSubmit "B1" in
  let purchases := Purchases.setPage 2 Purchases.initial in
  let transfers := Transfers.setPage 2 Transfers.initial in
  let assignments := Assignments.setPage 2 Assignments.initial in
  (Purchases.f_base_id (Purchases.filters (Purchases.handleFiltersChange purchases f))
   = "B1"
   /\ Purchases.page (Purchases.handleFiltersChange purchases f) = 2)
  /\ (Transfers.f_from_base_id
        (Transfers.filters (Transfers.handleFiltersChange transfers f)) = "B1"
      /\ Transfers.page (Transfers.handleFiltersChange transfers f) = 2)
  /\ (Assignments.f_base_id
        (Assignments.filters (Assignments.handleFiltersChange assignments f)) = "B1"
      /\ Assignments.page (Assignments.handleFiltersChange assignments f) = 2)
  /\ Assets.page (Assets.handleFiltersChange (Assets.setPage 2 Assets.initial) f) = 0
  /\ Expenditures.page
       (Expenditures.handleFiltersChange
          (Expenditures.setPage 2 Expenditures.initial) f) = 0.
Proof. repeat split. Qed.

End PageReset.

(** ** Failed loads *)

Section LoadFailure.

Lemma truthy_true (s : string) : JS.truthy s = true <-> s <> "".
Proof.
  unfold JS.truthy. rewrite negb_true_iff.
  destruct (String.eqb_spec s ""); split; congruence.
Qed.

Lemma or_else_error_from (payload : option string) (fallback : string) :
  error_from payload fallback (JS.or_else payload fallback).
Proof.
  split.
  - intros m -> Hm. simpl. apply truthy_true in Hm. by rewrite Hm.
  - intros [->| ->]; reflexivity.
Qed.

Lemma or_else_nonempty (payload : option string) (fallback : string) :
  fallback <> "" -> JS.or_else payload fallback <> "".
Proof.
  intros Hf. destruct payload as [m|]; simpl; [|done].
  destruct (JS.truthy m) eqn:Hm; [|done]. by apply truthy_true.
Qed.

(** C7, amended.  When the request of a list controller is rejected, the
    loaded collection (and, where the server paginates, the total) is
    what it was before, loading ends, and the error string is not empty:
    it is the message of the server's error payload when that message is
    present and not the empty string, and the controller's fallback
    otherwise. *)
Theorem load_failure_keeps_collection
    (err : AxiosError)
    (sa : Assets.State) (sp : Purchases.State) (sg : Assignments.State)
    (st : Transfers.State) (se : Expenditures.State) :
  let payload := response_data_error err in
  (let s' := Assets.fetchAllAssets sa (Rejected err) in
   Assets.allAssets s' = Assets.allAssets sa
   /\ error_from payload "Failed to fetch assets" (Assets.error s')
   /\ Assets.error s' <> "" /\ Assets.loading s' = false)
  /\ (let s' := Purchases.fetchAllPurchases sp (Rejected err) in
      Purchases.allPurchases s' = Purchases.allPurchases sp
      /\ error_from payload "Failed to fetch purchases" (Purchases.error s')
      /\ Purchases.error s' <> "" /\ Purchases.loading s' = false)
  /\ (let s' := Assignments.fetchAllAssignments sg (Rejected err) in
      Assignments.allAssignments s' = Assignments.allAssignments sg
      /\ error_from payload "Failed to fetch assignments" (Assignments.error s')
      /\ Assignments.error s' <> "" /\ Assignments.loading s' = false)
  /\ (let s' := Transfers.fetchTransfers st (Rejected err) in
      Transfers.transfers s' = Transfers.transfers st
      /\ Transfers.total s' = Transfers.total st
      /\ error_from payload "Failed to fetch transfers" (Transfers.error s')
      /\ Transfers.error s' <> "" /\ Transfers.loading s' = false)
  /\ (let s' := Expenditures.fetchExpenditures se (Rejected err) in
      Expenditures.expenditures s' = Expenditures.expenditures se
      /\ Expenditures.total s' = Expenditures.total se
      /\ error_from payload "Failed to fetch expenditures" (Expenditures.error s')
      /\ Expenditures.error s' <> "" /\ Expenditures.loading s' = false).
Proof.
  simpl. repeat split;
    try apply or_else_error_from; try (apply or_else_nonempty; discriminate).
Qed.

(** C7 as stated fails when the payload's message is present but empty:
    the assets controller then shows its fallback, not the payload. *)
Lemma load_failure_empty_payload :
  let err := mkAxiosError (Some "") (Some 500) in
  let s' := Assets.fetchAllAssets Assets.initial (Rejected err) in
  response_data_error err = Some ""
  /\ Assets.error s' = "Failed to fetch assets"
  /\ ~ (forall m, response_data_error err = Some m -> Assets.error s' = m).
Proof.
  simpl. repeat split. intros H. specialize (H "" eq_refl). discriminate H.
Qed.

End LoadFailure.

(** ** Session store *)

Section Session.
Import AuthContext.

Lemma logout_storage (s : State) (key : string) :
  getItem key (logout s)
  = if decide (key = "token" \/ key = "refreshToken") then None else getItem key s.
Proof.
  unfold logout, getItem, removeItem, setUser, setHeaders, setLocalStorage. simpl.
  case_decide as Hk.
  - destruct Hk as [-> | ->].
    + rewrite lookup_delete_ne by done. apply lookup_delete_eq.
    + apply lookup_delete_eq.
  - rewrite !lookup_delete_ne; [done| |]; intros <-; tauto.
Qed.

Lemma logout_user (s : State) : user (logout s) = None.
Proof. reflexivity. Qed.

Lemma logout_header (s : State) : headers (logout s) !! "Authorization" = None.
Proof. unfold logout. simpl. apply lookup_delete_eq. Qed.

Lemma logout_loading (s : State) : loading (logout s) = loading s.
Proof. reflexivity. Qed.



(** *** The token invariant *)

Lemma invariant_initial (persisted : gmap string string) :
  token_invariant (initial persisted).
Proof. by intros _. Qed.

Lemma invariant_configureAxios (s : State) :
  token_invariant s -> token_invariant (configureAxios s).
Proof.
  unfold configureAxios. destruct (getItem "token" s) as [t|] eqn:Ht; [|done].
  by destruct (JS.truthy t).
Qed.

Lemma invariant_login (s : State) (response : Settled LoginData) :
  token_invariant s -> token_invariant (fst (login s response)).
Proof.
  intros Hs. destruct response as [data|err]; simpl; [|done].
  unfold token_invariant, getItem. simpl.
  rewrite lookup_insert_ne by done. by rewrite lookup_insert_eq.
Qed.

Lemma invariant_logout (s : State) : token_invariant (logout s).
Proof. by intros _. Qed.

Lemma invariant_refreshToken (s : State) (response : Settled string) :
  token_invariant s -> token_invariant (fst (refreshToken s response)).
Proof.
  intros Hs. unfold refreshToken.
  destruct (negb (JS.truthy_opt (getItem "refreshToken" s))); [done|].
  destruct response as [token|err]; simpl; [|done].
  unfold token_invariant, getItem. simpl. by rewrite lookup_insert_eq.
Qed.

(** A profile request that succeeds was sent, so the token it was sent
    for is still in storage. *)
Lemma invariant_checkAuth_resolved (s : State) (data : User) :
  token_invariant s -> token_invariant (checkAuth s (Resolved data)).
Proof.
  intros Hs. unfold checkAuth.
  destruct (getItem "token" s) as [t|] eqn:Ht; simpl.
  - destruct (JS.truthy t); unfold token_invariant, getItem in *; simpl;
      congruence.
  - unfold token_invariant, getItem in *. simpl. done.
Qed.

(** The failing path removes the tokens and leaves the principal as it
    found it. *)
Lemma checkAuth_user_rejected (s : State) (err : AxiosError) :
  user (checkAuth s (Rejected err)) = user s.
Proof. unfold checkAuth. by destruct (JS.truthy_opt (getItem "token" s)). Qed.

Lemma invariant_checkAuth_rejected (s : State) (err : AxiosError) :
  user s = None -> token_invariant (checkAuth s (Rejected err)).
Proof. intros Hu _. by rewrite checkAuth_user_rejected. Qed.

Lemma invariant_mount (persisted : gmap string string) (profile : Settled User) :
  token_invariant (mount persisted profile).
Proof.
  unfold mount. destruct profile as [data|err].
  - apply invariant_checkAuth_resolved, invariant_configureAxios, invariant_initial.
  - apply invariant_checkAuth_rejected.
    unfold configureAxios. destruct (getItem "token" _) as [t|]; [|done].
    by destruct (JS.truthy t).
Qed.

Lemma invariant_call (s : State) (c : Call) :
  token_invariant s -> token_invariant (call s c).
Proof.
  intros Hs. destruct c as [response| |response]; simpl.
  - by apply invariant_login.
  - apply invariant_logout.
  - by apply invariant_refreshToken.
Qed.

(** What does hold of the invariant "no access token in storage implies a
    null principal".  It holds in the initial state.  [login], [logout] and
    [refreshToken] preserve it from any state, on their success and
    failure paths, and so does a start-up check whose profile request
    succeeds.  A start-up check whose profile request fails preserves it
    when the principal is null, as it is when the check runs at start-up;
    the failing path itself leaves the principal as it found it.  Hence
    the invariant holds in every state of a session in which the start-up
    check settles before the first call. *)
Theorem token_invariant_session (s : State) :
  Reachable s ->
  token_invariant s
  /\ (forall persisted, token_invariant (initial persisted))
  /\ (forall s0 response,
        token_invariant s0 -> token_invariant (fst (login s0 response)))
  /\ (forall s0, token_invariant (logout s0))
  /\ (forall s0 response,
        token_invariant s0 -> token_invariant (fst (refreshToken s0 response)))
  /\ (forall s0 data,
        token_invariant s0 -> token_invariant (checkAuth s0 (Resolved data)))
  /\ (forall s0 err,
        user s0 = None -> token_invariant (checkAuth s0 (Rejected err)))
  /\ (forall s0 err, user (checkAuth s0 (Rejected err)) = user s0).
Proof.
  intros Hreach. split.
  - induction Hreach as [persisted profile|s c _ IH].
    + apply invariant_mount.
    + by apply invariant_call.
  - split; [|split; [|split; [|split; [|split; [|split]]]]].
    + apply invariant_initial.
    + apply invariant_login.
    + apply invariant_logout.
    + apply invariant_refreshToken.
    + apply invariant_checkAuth_resolved.
    + apply invariant_checkAuth_rejected.
    + apply checkAuth_user_rejected.
Qed.

End Session.

(** ** Instances *)

Section Instances.
Import AuthContext.

(** An admin may approve and edit a pending transfer. *)
Example admin_pending_transfer :
  Transfers.canApprove Sample.pendingTransfer = true
  /\ Transfers.canEdit (Some Sample.admin) Sample.pendingTransfer = true.
Proof. by split. Qed.

(** The commander of B1 may neither edit nor delete an approved transfer
    out of B1. *)
Example commander_approved_transfer :
  Transfers.canEdit (Some Sample.price) Sample.approvedTransfer = false
  /\ Transfers.canDelete (Some Sample.price) Sample.approvedTransfer = false.
Proof. by split. Qed.

(** [slice] clamps its ends and counts negative indices from the end. *)
Example slice_cases :
  JS.slice [1; 2; 3; 4; 5]%nat 1 3 = [2; 3]%nat
  /\ JS.slice [1; 2; 3; 4; 5]%nat (-2) 5 = [4; 5]%nat
  /\ JS.slice [1; 2; 3; 4; 5]%nat 1 (-1) = [2; 3; 4]%nat
  /\ JS.slice [1; 2; 3; 4; 5]%nat 3 10 = [4; 5]%nat
  /\ JS.slice [1; 2; 3; 4; 5]%nat 2 1 = []
  /\ JS.slice [1; 2; 3; 4; 5]%nat 7 9 = [].
Proof. by repeat split. Qed.

Example includes_cases :
  JS.includes "m4 rifle" "rif" = true
  /\ JS.includes "m4 rifle" "" = true
  /\ JS.includes "" "" = true
  /\ JS.includes "m4 rifle" "truck" = false.
Proof. by repeat split. Qed.

Example or_else_cases :
  JS.or_else (Some "Forbidden") "Failed to fetch assets" = "Forbidden"
  /\ JS.or_else (Some "") "Failed to fetch assets" = "Failed to fetch assets"
  /\ JS.or_else None "Failed to fetch assets" = "Failed to fetch assets".
Proof. by repeat split. Qed.

(** The name criterion ignores case, the other criteria are exact. *)
Example assets_filter_cases :
  Assets.filteredAssets Sample.toLowerCase [Sample.rifle; Sample.truck]
    (Assets.mkFilters "RIF" "" "") = [Sample.rifle]
  /\ Assets.filteredAssets Sample.toLowerCase [Sample.rifle; Sample.truck]
       (Assets.mkFilters "" "B2" "assigned") = [Sample.truck]
  /\ Assets.filteredAssets Sample.toLowerCase [Sample.rifle; Sample.truck]
       (Assets.mkFilters "r" "" "") = [Sample.rifle; Sample.truck].
Proof. by repeat split. Qed.

(** Purchase dates are compared as strings. *)
Example purchases_filter_dates :
  Purchases.filteredPurchases Sample.purchases
    (Purchases.mkFilters "" "2024-01-01" "2024-01-31" "") = Sample.purchases
  /\ Purchases.filteredPurchases Sample.purchases
       (Purchases.mkFilters "" "2024-02-01" "" "") = [].
Proof. by repeat split. Qed.

(** Start-up over an expired token: both tokens and the header are
    removed, the principal stays null and loading goes from true to false. *)
Example mount_expired_token :
  let s := mount Sample.persisted (Rejected Sample.unauthorized) in
  loading (initial Sample.persisted) = true
  /\ getItem "token" s = None /\ getItem "refreshToken" s = None
  /\ headers s !! "Authorization" = None
  /\ user s = None /\ loading s = false.
Proof. vm_compute. by repeat split. Qed.

(** On page 1 of size 2 the slice of a three-element list is its last
    element; slicing that page again as page 1 gives nothing, as page 0 it
    gives the page back. *)
Example second_page_resliced :
  Assets.paginatedAssets Sample.assets 1 2 = [Sample.asset "c"]
  /\ Assets.paginatedAssets (Assets.paginatedAssets Sample.assets 1 2) 1 2 = []
  /\ Assets.paginatedAssets (Assets.paginatedAssets Sample.assets 1 2) 0 2
     = [Sample.asset "c"].
Proof. by repeat split. Qed.

(** After a filter change on page 2 the purchases table shows no row
    although one purchase passes the new criteria. *)
Example purchases_empty_page_after_filter :
  let s := Purchases.setPage 2 (Purchases.setAllPurchases Sample.purchases
                                  Purchases.initial) in
  let s' := Purchases.handleFiltersChange s (FilterBar.handleFilterSubmit "B1") in
  Purchases.filteredPurchases (Purchases.allPurchases s') (Purchases.filters s')
  = Sample.purchases
  /\ Purchases.rows s' = [].
Proof. by split. Qed.

Lemma pagination_partitions_witness :
  0 < 2 /\ length Sample.assets <= 2 * 2
  /\ concat (pages (fun p => Assets.paginatedAssets Sample.assets p 2) 2)
     = Sample.assets
  /\ concat (pages (fun p => Assignments.paginatedAssignments Sample.assignments p 2) 2)
     = Sample.assignments.
Proof.
  assert (Hsize : 0 < 2) by lia.
  assert (Ha : length Sample.assets <= 2 * 2) by (simpl; lia).
  assert (Hg : length Sample.assignments <= 2 * 2) by (simpl; lia).
  assert (Hp : length Sample.purchases <= 2 * 2) by (simpl; lia).
  destruct (pagination_partitions 2 2 Sample.assets Sample.assignments
              Sample.purchases Hsize Ha Hg Hp)
    as [[(_ & _ & Hca & _) _] [[(_ & _ & Hcg & _) _] _]].
  repeat split; assumption.
Defined.


Lemma token_invariant_session_witness :
  Reachable Sample.session /\ token_invariant Sample.session.
Proof.
  assert (Hreach : Reachable Sample.session)
    by (apply reach_call, reach_mount).
  split; [exact Hreach|].
  exact (proj1 (token_invariant_session Sample.session Hreach)).
Defined.

(** C9, at a failing input.  The invariant "no access token in storage
    implies a null principal" is not preserved by the failing path of the
    start-up check.  The provider mounts over a stale token and sends the
    profile request; a login completes while that request is pending, and
    the invariant holds; the profile request is then rejected, and the
    catch block removes both tokens and the header but, unlike [logout] and
    the catch block of [refreshToken], leaves the principal set: no access
    token is in storage and the principal is not null. *)
Lemma checkAuth_rejected_breaks_invariant :
  let s := Sample.loggedInBeforeCheckSettles in
  let s' := checkAuth s (Rejected Sample.unauthorized) in
  token_invariant s
  /\ s' = setLoading false (checkAuth_settle s (Rejected Sample.unauthorized))
  /\ getItem "token" s' = None
  /\ user s' = Some Sample.price
  /\ ~ token_invariant s'.
Proof.
  simpl. split; [|split; [|split; [|split]]].
  - apply invariant_login, invariant_configureAxios, invariant_initial.
  - vm_compute. reflexivity.
  - vm_compute. reflexivity.
  - vm_compute. reflexivity.
  - intros Hinv. assert (Habs : getItem "token"
      (checkAuth Sample.loggedInBeforeCheckSettles (Rejected Sample.unauthorized))
      = None) by (vm_compute; reflexivity).
    apply Hinv in Habs. vm_compute in Habs. discriminate Habs.
Qed.

End Instances.

(** ** Session store: further properties *)

Section SessionMore.
Import AuthContext.

Lemma header_matches_logout (s : State) : header_matches_token (logout s).
Proof.
  split.
  - intros h. by rewrite logout_header.
  - intros t. by rewrite logout_storage.
Qed.

Lemma header_matches_login (s : State) (response : Settled LoginData) :
  header_matches_token s -> header_matches_token (fst (login s response)).
Proof.
  intros Hs. destruct response as [data|err]; simpl; [|done].
  unfold header_matches_token, getItem. simpl.
  rewrite (lookup_insert_ne _ "refreshToken" "token") by done.
  rewrite !lookup_insert_eq.
  split.
  - intros h [= <-]. by exists (login_token data).
  - by intros t [= <-] _.
Qed.

Lemma header_matches_refreshToken (s : State) (response : Settled string) :
  header_matches_token s -> header_matches_token (fst (refreshToken s response)).
Proof.
  intros Hs. unfold refreshToken.
  destruct (negb (JS.truthy_opt (getItem "refreshToken" s)));
    [apply header_matches_logout|].
  destruct response as [token|err]; simpl; [|apply header_matches_logout].
  unfold header_matches_token, getItem. simpl. rewrite !lookup_insert_eq.
  split.
  - intros h [= <-]. by exists token.
  - by intros t [= <-] _.
Qed.

Lemma header_matches_mount (persisted : gmap string string) (profile : Settled User) :
  header_matches_token (mount persisted profile).
Proof.
  unfold mount, checkAuth, configureAxios, initial, header_matches_token, getItem.
  simpl. destruct (persisted !! "token") as [t|] eqn:Ht; simpl.
  - destruct (JS.truthy t) eqn:Htruthy; simpl.
    + rewrite Ht. simpl. rewrite Htruthy.
      destruct profile as [data|err]; simpl.
      * rewrite lookup_insert_eq, Ht. split.
        -- intros h [= <-]. by exists t.
        -- by intros t' [= <-] _.
      * rewrite lookup_delete_eq, lookup_delete_ne, lookup_delete_eq by done.
        split; [by intros h|by intros t'].
    + rewrite Ht. simpl. rewrite Htruthy. simpl. rewrite Ht. split.
      * intros h. by rewrite lookup_empty.
      * intros t' [= <-]. by rewrite Htruthy.
  - rewrite Ht. simpl. rewrite Ht. split.
    + intros h. by rewrite lookup_empty.
    + by intros t'.
Qed.

(** X1. In every state of a session the default Authorization header and
    the stored access token agree: a header that is set is "Bearer "
    followed by the stored token, and a stored non-empty token is in the
    header. *)
Theorem authorization_header_follows_token (s : State) :
  Reachable s -> header_matches_token s.
Proof.
  intros Hreach. induction Hreach as [persisted profile|s c _ IH].
  - apply header_matches_mount.
  - destruct c as [response| |response]; simpl.
    + by apply header_matches_login.
    + apply header_matches_logout.
    + by apply header_matches_refreshToken.
Qed.

Lemma state_eq (s1 s2 : State) :
  localStorage s1 = localStorage s2 -> headers s1 = headers s2 ->
  user s1 = user s2 -> loading s1 = loading s2 -> s1 = s2.
Proof. destruct s1, s2. simpl. by intros -> -> -> ->. Qed.

(** Two maps built from inserts and deletes are equal when they agree on
    every key. *)
Ltac same_map :=
  apply map_eq; intros ?key;
  rewrite ?lookup_delete, ?lookup_insert;
  repeat case_decide; subst; congruence.

Lemma logout_idempotent (s : State) : logout (logout s) = logout s.
Proof. apply state_eq; simpl; try done; same_map. Qed.

(** X2. Logging out after any call gives the state that logging out
    before it would have given: whatever a login or a token refresh stored,
    [logout] removes, and logging out twice is logging out once. *)
Theorem logout_absorbs_call (s : State) (c : Call) :
  logout (call s c) = logout s.
Proof.
  destruct c as [response| |response]; simpl.
  - destruct response as [data|err]; simpl; [|done].
    apply state_eq; simpl; try done; same_map.
  - apply logout_idempotent.
  - unfold refreshToken.
    destruct (negb (JS.truthy_opt (getItem "refreshToken" s)));
      [apply logout_idempotent|].
    destruct response as [token|err]; simpl; [|apply logout_idempotent].
    apply state_eq; simpl; try done; same_map.
Qed.

(** X3. A login that succeeds stores both tokens under their keys, leaves
    every other key alone, sets the header to the bearer form of the new
    access token and the principal to the returned user, and throws
    nothing.  A login that fails changes nothing and throws an [Error]
    whose message is not empty: the server's message when it has a
    non-empty one, 'Login failed' otherwise. *)
Theorem login_outcomes (s : State) (response : Settled LoginData) :
  match response with
  | Resolved data =>
      let s' := fst (login s response) in
      snd (login s response) = None
      /\ getItem "token" s' = Some (login_token data)
      /\ getItem "refreshToken" s' = Some (login_refreshToken data)
      /\ (forall key, key <> "token" -> key <> "refreshToken" ->
                      getItem key s' = getItem key s)
      /\ headers s' !! "Authorization" = Some (bearer (login_token data))
      /\ user s' = Some (login_user data)
      /\ loading s' = loading s
  | Rejected err =>
      fst (login s response) = s
      /\ exists m, snd (login s response) = Some (ErrorMessage m)
                   /\ m <> ""
                   /\ error_from (response_data_error err) "Login failed" m
  end.
Proof.
  destruct response as [data|err]; simpl.
  - unfold getItem. simpl. split; [done|].
    split; [by rewrite lookup_insert_ne, lookup_insert_eq|].
    split; [by rewrite lookup_insert_eq|].
    split; [|by rewrite lookup_insert_eq].
    intros key Ht Hr. by rewrite !lookup_insert_ne.
  - split; [done|]. eexists. split; [done|]. split.
    + by apply or_else_nonempty.
    + apply or_else_error_from.
Qed.

(** X4. [refreshToken] has three outcomes.  Without a stored, non-empty
    refresh token it logs out and throws 'No refresh token', whatever the
    server would have answered.  With one, a successful refresh throws
    nothing, replaces the access token and the header, and keeps the
    refresh token and the principal; a failed refresh logs out and throws
    the request's own error. *)
Theorem refreshToken_outcomes (s : State) (response : Settled string) :
  (JS.truthy_opt (getItem "refreshToken" s) = false ->
     refreshToken s response = (logout s, Some (ErrorMessage "No refresh token")))
  /\ (JS.truthy_opt (getItem "refreshToken" s) = true ->
      match response with
      | Resolved token =>
          let s' := fst (refreshToken s response) in
          snd (refreshToken s response) = None
          /\ getItem "token" s' = Some token
          /\ headers s' !! "Authorization" = Some (bearer token)
          /\ getItem "refreshToken" s' = getItem "refreshToken" s
          /\ user s' = user s
      | Rejected err =>
          refreshToken s response = (logout s, Some (AxiosFailure err))
      end).
Proof.
  unfold refreshToken. split; intros ->; simpl; [done|].
  destruct response as [token|err]; simpl; [|done].
  unfold getItem. simpl. rewrite !lookup_insert_eq.
  by rewrite lookup_insert_ne.
Qed.

(** X5. Start-up always ends with loading false.  The principal is set
    exactly when the browser kept a non-empty access token and the profile
    request for it succeeded.  Without such a token storage is left as it
    was and no header is set; with one and a failed profile request both
    tokens and the header are gone. *)
Theorem mount_outcomes (persisted : gmap string string) (profile : Settled User) :
  let s := mount persisted profile in
  loading s = false
  /\ (forall u, user s = Some u <->
                JS.truthy_opt (persisted !! "token") = true /\ profile = Resolved u)
  /\ (JS.truthy_opt (persisted !! "token") = false ->
      localStorage s = persisted /\ headers s = ∅)
  /\ (JS.truthy_opt (persisted !! "token") = true ->
      forall err, profile = Rejected err ->
        getItem "token" s = None /\ getItem "refreshToken" s = None
        /\ headers s !! "Authorization" = None).
Proof.
  unfold mount, checkAuth, configureAxios, initial, getItem. simpl.
  destruct (persisted !! "token") as [t|] eqn:Ht; simpl.
  - destruct (JS.truthy t) eqn:Htruthy; simpl; rewrite Ht; simpl; rewrite Htruthy.
    + split; [done|]. split; [|split; [done|]].
      * intros u. destruct profile as [data|err]; simpl.
        -- split; [by intros [= ->]|by intros [_ [= ->]]].
        -- split; [done|by intros [_ ?]].
      * intros _ err ->. simpl.
        rewrite lookup_delete_ne, !lookup_delete_eq by done. done.
    + simpl. split; [done|]. split; [|split; [done|done]].
      intros u. split; [done|by intros [? _]].
  - rewrite Ht. simpl. split; [done|]. split; [|split; [done|done]].
    intros u. split; [done|by intros [? _]].
Qed.

End SessionMore.

(** ** Route guard and login form *)

Section Guard.
Import AuthContext.

Lemma call_loading (s : State) (c : Call) : loading (call s c) = loading s.
Proof.
  destruct c as [response| |response]; simpl.
  - by destruct response.
  - done.
  - unfold refreshToken.
    destruct (negb (JS.truthy_opt (getItem "refreshToken" s))); [done|].
    by destruct response.
Qed.

Lemma reachable_loaded (s : State) : Reachable s -> loading s = false.
Proof.
  intros Hreach. induction Hreach as [persisted profile|s c _ IH].
  - apply mount_outcomes.
  - by rewrite call_loading.
Qed.

Lemma reachable_token_invariant (s : State) : Reachable s -> token_invariant s.
Proof.
  intros Hreach. induction Hreach as [persisted profile|s c _ IH].
  - apply invariant_mount.
  - by apply invariant_call.
Qed.

(** X6. The route guard shows the spinner exactly while the start-up
    check is pending, the protected pages exactly when it has settled and a
    principal is set, and the redirect to the login page exactly when it has
    settled and there is no principal; right after a logout it never shows
    the protected pages.  In a session whose start-up check settled before
    the first call and whose calls run to completion one after another, the
    guard shows no spinner, the protected pages are shown only while an
    access token is in storage, and a logout leads to the redirect. *)
Theorem protected_route_needs_token (s : State) :
  (App.ProtectedRoute s = App.Spinner <-> loading s = true)
  /\ (App.ProtectedRoute s = App.Children <-> loading s = false /\ is_Some (user s))
  /\ (App.ProtectedRoute s = App.NavigateToLogin <->
      loading s = false /\ user s = None)
  /\ App.ProtectedRoute (logout s) <> App.Children
  /\ (Reachable s ->
      App.ProtectedRoute s <> App.Spinner
      /\ (App.ProtectedRoute s = App.Children -> is_Some (getItem "token" s))
      /\ App.ProtectedRoute (logout s) = App.NavigateToLogin).
Proof.
  unfold App.ProtectedRoute. rewrite logout_loading, logout_user.
  split; [|split; [|split; [|split]]].
  - destruct (loading s); [done|]. by destruct (user s).
  - destruct (loading s); [by split; [|intros [? _]]|].
    destruct (user s) as [u|]; split; try done.
    + by intros [_ [? ?]].
  - destruct (loading s); [by split; [|intros [? _]]|].
    destruct (user s) as [u|]; split; try done. by intros [_ ?].
  - by destruct (loading s).
  - intros Hreach.
    pose proof (reachable_loaded s Hreach) as Hl.
    pose proof (reachable_token_invariant s Hreach) as Hinv.
    rewrite Hl. split; [by destruct (user s)|]. split; [|done].
    destruct (user s) as [u|] eqn:Hu; [|done]. intros _.
    destruct (getItem "token" s) as [t|] eqn:Ht; [by exists t|].
    specialize (Hinv Ht). congruence.
Qed.

Lemma protected_route_needs_token_witness :
  Reachable Sample.session
  /\ App.ProtectedRoute Sample.session = App.Children
  /\ is_Some (getItem "token" Sample.session).
Proof.
  assert (Hreach : Reachable Sample.session) by (apply reach_call, reach_mount).
  destruct (protected_route_needs_token Sample.session)
    as (_ & _ & _ & _ & Hsession).
  destruct (Hsession Hreach) as (_ & Htoken & _).
  assert (Hchildren : App.ProtectedRoute Sample.session = App.Children)
    by (vm_compute; reflexivity).
  split; [exact Hreach|]. split; [exact Hchildren|]. exact (Htoken Hchildren).
Defined.

(** Outside such sessions the guard can show the protected pages with no
    token in storage: a login that completes while the profile request of
    the start-up check is pending, followed by the failure of that request. *)
Example protected_pages_without_token :
  let s := checkAuth Sample.loggedInBeforeCheckSettles (Rejected Sample.unauthorized) in
  App.ProtectedRoute s = App.Children /\ getItem "token" s = None.
Proof. vm_compute. by split. Qed.

Lemma authorization_header_follows_token_witness :
  Reachable Sample.session
  /\ headers Sample.session !! "Authorization" = Some (bearer "t1").
Proof.
  assert (Hreach : Reachable Sample.session) by (apply reach_call, reach_mount).
  destruct (authorization_header_follows_token Sample.session Hreach)
    as [_ Htoken].
  split; [exact Hreach|].
  apply Htoken; vm_compute; reflexivity.
Defined.

(** X7. The login form navigates to the dashboard exactly when the login
    request succeeds, and then shows no error and has set the principal.
    When the request fails the session is untouched, nothing navigates and
    the form shows a non-empty error: the server's message when it has a
    non-empty one, 'Login failed' otherwise.  Either way the form stops
    loading. *)
Theorem login_form_outcomes
    (st : Login.State) (auth : State) (response : Settled LoginData) :
  let result := Login.handleSubmit st auth response in
  let st' := fst (fst result) in
  let auth' := snd (fst result) in
  let navigated := snd result in
  Login.loading st' = false
  /\ Login.email st' = Login.email st /\ Login.password st' = Login.password st
  /\ match response with
     | Resolved data =>
         navigated = true /\ Login.error st' = ""
         /\ user auth' = Some (login_user data)
     | Rejected err =>
         navigated = false /\ auth' = auth
         /\ Login.error st' <> ""
         /\ error_from (response_data_error err) "Login failed" (Login.error st')
     end.
Proof.
  destruct response as [data|err]; simpl; [done|].
  repeat split; try done.
  - destruct (response_data_error err) as [m|]; simpl; [|done].
    destruct (JS.truthy m) eqn:Hm; simpl; [|done].
    rewrite Hm. by apply truthy_true.
  - intros m Hp Hm. rewrite Hp. simpl.
    apply truthy_true in Hm. by rewrite Hm; simpl; rewrite Hm.
  - intros [Hp|Hp]; by rewrite Hp.
Qed.

End Guard.

(** ** Shared reference data *)

Section ReferenceData.
Import DataContext.

(** X8. For a logged-in principal, once start-up has settled, the data
    provider's effect ends with loading false and, collection by
    collection, installs what its request returned or keeps what was cached
    when the request failed.  A failed request sets the error to
    'Authentication required. Please log in.' on status 401 and to the
    collection's own message otherwise; when all three requests succeed no
    error is left, and when all three fail one is. *)
Theorem reference_data_load
    (u : AuthContext.User) (d : State)
    (rb : Settled (list Base)) (rt : Settled (list AssetType))
    (ra : Settled (list Asset)) :
  let d' := initializeData false (Some u) d rb rt ra in
  loading d' = false
  /\ bases d' = match rb with Resolved data => data | Rejected _ => bases d end
  /\ assetTypes d'
     = match rt with Resolved data => data | Rejected _ => assetTypes d end
  /\ assets d' = match ra with Resolved data => data | Rejected _ => assets d end
  /\ (forall err, error (fetchBases d (Rejected err))
                  = Some (if decide (response_status err = Some 401)
                          then "Authentication required. Please log in."
                          else "Failed to fetch bases"))
  /\ (forall err, error (fetchAssetTypes d (Rejected err))
                  = Some (if decide (response_status err = Some 401)
                          then "Authentication required. Please log in."
                          else "Failed to fetch asset types"))
  /\ (forall err, error (fetchAssets d (Rejected err))
                  = Some (if decide (response_status err = Some 401)
                          then "Authentication required. Please log in."
                          else "Failed to fetch assets"))
  /\ ((exists b t a, rb = Resolved b /\ rt = Resolved t /\ ra = Resolved a) ->
      error d' = None)
  /\ ((exists b t a, rb = Rejected b /\ rt = Rejected t /\ ra = Rejected a) ->
      is_Some (error d')).
Proof.
  assert (Hmsg : forall err fallback,
             fetch_error err fallback
             = if decide (response_status err = Some 401)
               then "Authentication required. Please log in." else fallback).
  { intros err fallback. unfold fetch_error.
    destruct (response_status err) as [n|]; [|by case_decide].
    case_decide as Hn.
    - by injection Hn as ->.
    - do 402 (destruct n as [|n]; try done). }
  simpl. split; [done|]. split; [by destruct rb, rt, ra|].
  split; [by destruct rb, rt, ra|]. split; [by destruct rb, rt, ra|].
  split; [intros err; simpl; by rewrite Hmsg|].
  split; [intros err; simpl; by rewrite Hmsg|].
  split; [intros err; simpl; by rewrite Hmsg|].
  split.
  - by intros (b & t & a & -> & -> & ->).
  - intros (b & t & a & -> & -> & ->). simpl. by eexists.
Qed.

End ReferenceData.

(** ** The base selector of the filter bar *)

Section BaseSelector.
Import AuthContext.

Lemma truthy_false (s : string) : JS.truthy s = false <-> s = "".
Proof.
  unfold JS.truthy. rewrite negb_false_iff. apply String.eqb_eq.
Qed.

(** X9. The filter bar's preselection never overwrites a base that is
    selected, never changes the selection of an admin or of a principal
    without a base, and running it again changes nothing more.  For a base
    commander or logistics officer with a non-empty base an empty selection
    becomes that base: so after "Clear" the selector shows the principal's
    base although the empty criterion is what was passed to the page. *)
Theorem base_preselection
    (user : option User) (selectedBase : string) :
  (selectedBase <> "" -> FilterBarState.preselect user selectedBase = selectedBase)
  /\ (role_of user <> Some "base_commander" ->
      role_of user <> Some "logistics_officer" ->
      FilterBarState.preselect user selectedBase = selectedBase)
  /\ (base_id_of user = None ->
      FilterBarState.preselect user selectedBase = selectedBase)
  /\ FilterBarState.preselect user (FilterBarState.preselect user selectedBase)
     = FilterBarState.preselect user selectedBase
  /\ (forall b,
        role_of user = Some "base_commander" \/ role_of user = Some "logistics_officer" ->
        base_id_of user = Some b -> b <> "" ->
        FilterBarState.preselect user "" = b
        /\ FilterBarState.preselect user
             (fst (FilterBarState.handleClearFilters selectedBase)) = b
        /\ FilterBar.base_id (snd (FilterBarState.handleClearFilters selectedBase)) = "").
Proof.
  unfold FilterBarState.preselect.
  split; [|split; [|split; [|split]]].
  - intros Hsel. apply truthy_true in Hsel. rewrite Hsel.
    destruct (base_id_of user); [|done]. by rewrite andb_false_r.
  - intros Hc Hl. apply strict_eq_false in Hc, Hl. rewrite Hc, Hl.
    by destruct (base_id_of user).
  - by intros ->.
  - destruct (base_id_of user) as [b|]; [|done].
    destruct ((JS.strict_eq (role_of user) "base_commander"
               || JS.strict_eq (role_of user) "logistics_officer")
              && JS.truthy b && negb (JS.truthy selectedBase)) eqn:Hcond; [|by rewrite Hcond].
    apply andb_true_iff in Hcond as [Hcond _].
    apply andb_true_iff in Hcond as [_ Hb]. rewrite Hb. simpl.
    by rewrite andb_false_r.
  - intros b Hrole Hb Hne. rewrite Hb. simpl.
    apply truthy_true in Hne. rewrite Hne.
    assert (Hr : JS.strict_eq (role_of user) "base_commander"
                 || JS.strict_eq (role_of user) "logistics_officer" = true).
    { apply orb_true_iff. destruct Hrole as [Hr|Hr]; [left|right];
        by apply strict_eq_true. }
    by rewrite Hr.
Qed.

End BaseSelector.

(** ** What the client-side lists show *)

Section ShownRows.

Lemma window_shows_page {A : Type} (keep : A -> bool) (all : list A) (page size : nat) :
  shows_page (take size (drop (page * size) (List.filter keep all)))
    (List.filter keep all) all keep page size.
Proof.
  assert (Hsub : sublist (take size (drop (page * size) (List.filter keep all)))
                   (List.filter keep all)).
  { etransitivity; [apply sublist_take|apply sublist_drop]. }
  split; [done|]. split; [rewrite length_take; lia|].
  split; [etransitivity; [exact Hsub|apply filter_sublist]|].
  split.
  - intros x Hx. apply filter_In. apply list_elem_of_In.
    eapply elem_of_sublist; [|exact Hsub]. by apply list_elem_of_In.
  - intros Hpast. by rewrite drop_ge, take_nil.
Qed.

(** X10. The rows of the assets, purchases and assignments tables are the
    window of the filtered collection at the current page: at most
    [rowsPerPage] rows, all of them records of the loaded collection that
    pass the criteria, in the collection's order; a page index at or past
    the end of the filtered collection shows no row. *)
Theorem tables_show_page
    (toLowerCase : string -> string)
    (sa : Assets.State) (sp : Purchases.State) (sg : Assignments.State) :
  shows_page (Assets.rows toLowerCase sa)
    (Assets.filteredAssets toLowerCase (Assets.allAssets sa) (Assets.filters sa))
    (Assets.allAssets sa) (Assets.keep toLowerCase (Assets.filters sa))
    (Assets.page sa) (Assets.rowsPerPage sa)
  /\ shows_page (Purchases.rows sp)
       (Purchases.filteredPurchases (Purchases.allPurchases sp) (Purchases.filters sp))
       (Purchases.allPurchases sp) (Purchases.keep (Purchases.filters sp))
       (Purchases.page sp) (Purchases.rowsPerPage sp)
  /\ shows_page (Assignments.rows sg)
       (Assignments.filteredAssignments (Assignments.allAssignments sg)
          (Assignments.filters sg))
       (Assignments.allAssignments sg) (Assignments.keep (Assignments.filters sg))
       (Assignments.page sg) (Assignments.rowsPerPage sg).
Proof.
  unfold Assets.rows, Purchases.rows, Assignments.rows.
  rewrite (paginated_window Assets.paginatedAssets) by done.
  rewrite (paginated_window Purchases.paginatedPurchases) by done.
  rewrite (paginated_window Assignments.paginatedAssignments) by done.
  split; [|split]; apply window_shows_page.
Qed.

(** X11. Choosing another number of rows per page goes back to the first
    page: the table then shows the first [value] records of the filtered
    collection, and the criteria and the collection are untouched. *)
Theorem rows_per_page_change_shows_first_rows
    (toLowerCase : string -> string) (value : nat)
    (sa : Assets.State) (sp : Purchases.State) (sg : Assignments.State) :
  (let s' := TablePagination.assets_onRowsPerPageChange sa value in
   Assets.rows toLowerCase s'
   = take value
       (Assets.filteredAssets toLowerCase (Assets.allAssets sa) (Assets.filters sa))
   /\ Assets.page s' = 0)
  /\ (let s' := TablePagination.purchases_onRowsPerPageChange sp value in
      Purchases.rows s'
      = take value
          (Purchases.filteredPurchases (Purchases.allPurchases sp) (Purchases.filters sp))
      /\ Purchases.page s' = 0)
  /\ (let s' := TablePagination.assignments_onRowsPerPageChange sg value in
      Assignments.rows s'
      = take value
          (Assignments.filteredAssignments (Assignments.allAssignments sg)
             (Assignments.filters sg))
      /\ Assignments.page s' = 0).
Proof.
  unfold Assets.rows, Purchases.rows, Assignments.rows. simpl.
  rewrite (paginated_window Assets.paginatedAssets) by done.
  rewrite (paginated_window Purchases.paginatedPurchases) by done.
  rewrite (paginated_window Assignments.paginatedAssignments) by done.
  by rewrite !Nat.mul_0_l, !drop_0.
Qed.

Lemma filter_ext_bool {A : Type} (f g : A -> bool) (l : list A) :
  (forall x, f x = g x) -> List.filter f l = List.filter g l.
Proof. intros Hfg. apply filter_ext. exact Hfg. Qed.

(** X12. What the filter bar passes on replaces all criteria of the
    assets, purchases and assignments lists by the base alone: after
    "Apply" with a base the filtered collection is exactly the loaded
    records of that base, in order, and after "Clear" it is the whole
    loaded collection. *)
Theorem filter_bar_selects_base
    (toLowerCase : string -> string) (selectedBase : string)
    (sa : Assets.State) (sp : Purchases.State) (sg : Assignments.State) :
  let apply := FilterBar.handleFilterSubmit selectedBase in
  let clear := FilterBar.handleClearFilters in
  (selectedBase <> "" ->
   Assets.filteredAssets toLowerCase (Assets.allAssets sa)
     (Assets.filters (Assets.handleFiltersChange sa apply))
   = List.filter (fun a => String.eqb (Assets.base_id a) selectedBase)
       (Assets.allAssets sa)
   /\ Purchases.filteredPurchases (Purchases.allPurchases sp)
        (Purchases.filters (Purchases.handleFiltersChange sp apply))
      = List.filter (fun p => String.eqb (Purchases.base_id p) selectedBase)
          (Purchases.allPurchases sp)
   /\ Assignments.filteredAssignments (Assignments.allAssignments sg)
        (Assignments.filters (Assignments.handleFiltersChange sg apply))
      = List.filter (fun a => String.eqb (Assignments.base_id a) selectedBase)
          (Assignments.allAssignments sg))
  /\ (Assets.filteredAssets toLowerCase (Assets.allAssets sa)
        (Assets.filters (Assets.handleFiltersChange sa clear))
      = Assets.allAssets sa
      /\ Purchases.filteredPurchases (Purchases.allPurchases sp)
           (Purchases.filters (Purchases.handleFiltersChange sp clear))
         = Purchases.allPurchases sp
      /\ Assignments.filteredAssignments (Assignments.allAssignments sg)
           (Assignments.filters (Assignments.handleFiltersChange sg clear))
         = Assignments.allAssignments sg).
Proof.
  simpl. split.
  - intros Hsel. apply truthy_true in Hsel.
    unfold Assets.filteredAssets, Purchases.filteredPurchases,
      Assignments.filteredAssignments.
    split; [|split]; apply filter_ext_bool; intros x.
    + unfold Assets.keep. simpl. rewrite Hsel. simpl. rewrite Hsel. simpl.
      by destruct (String.eqb (Assets.base_id x) selectedBase).
    + unfold Purchases.keep. simpl. rewrite Hsel. simpl.
      by destruct (String.eqb (Purchases.base_id x) selectedBase).
    + unfold Assignments.keep. simpl. rewrite Hsel. simpl.
      by destruct (String.eqb (Assignments.base_id x) selectedBase).
  - split; [|split]; by apply filter_keeps_all.
Qed.

Lemma filter_bar_selects_base_witness :
  "B1" <> ""
  /\ Purchases.filteredPurchases Sample.purchases
       (Purchases.filters
          (Purchases.handleFiltersChange Purchases.initial
             (FilterBar.handleFilterSubmit "B1")))
     = List.filter (fun p => String.eqb (Purchases.base_id p) "B1") Sample.purchases.
Proof.
  assert (Hne : "B1" <> "") by discriminate.
  destruct (filter_bar_selects_base Sample.toLowerCase "B1" Assets.initial
              (Purchases.setAllPurchases Sample.purchases Purchases.initial)
              Assignments.initial) as [Happly _].
  destruct (Happly Hne) as (_ & Hp & _).
  split; [exact Hne|exact Hp].
Defined.

End ShownRows.

(** ** Permissions: further properties *)

Section PermissionsMore.
Import AuthContext.

(** X13. Whoever may edit a transfer or a purchase may also delete it, and
    without a principal neither is allowed. *)
Theorem edit_implies_delete
    (user : option User) (t : Transfers.Transfer) (p : Purchases.Purchase) :
  (Transfers.canEdit user t = true -> Transfers.canDelete user t = true)
  /\ (Purchases.canEdit user p = true -> Purchases.canDelete user p = true)
  /\ (user = None ->
      Transfers.canEdit user t = false /\ Transfers.canDelete user t = false
      /\ Purchases.canEdit user p = false /\ Purchases.canDelete user p = false).
Proof.
  unfold Transfers.canEdit, Transfers.canDelete, Purchases.canEdit,
    Purchases.canDelete.
  split; [|split].
  - destruct (JS.strict_eq (role_of user) "admin"); [done|].
    destruct (JS.strict_eq (role_of user) "base_commander"); [|done].
    rewrite !andb_true_iff. by intros [-> Hb].
  - destruct (JS.strict_eq (role_of user) "admin"); [done|].
    destruct (JS.strict_eq (role_of user) "base_commander"); [|done].
    rewrite !andb_true_iff. by intros [-> Hb].
  - by intros ->.
Qed.

Lemma role_is (user : option User) (r : string) :
  role_of user = Some r ->
  forall r', JS.strict_eq (role_of user) r' = String.eqb r r'.
Proof. by intros ->. Qed.

(** X14. The action cell of a transfer row and of a purchase row depends on
    the role as follows.  A logistics officer gets no cell.  An admin gets
    edit and delete on every record, preceded by approve and reject when
    the record is pending.  A base commander gets edit when [canEdit] holds
    and delete when [canDelete] holds, and never approve or reject.  In
    every cell approve and reject come together and only for an admin. *)
Theorem row_actions_by_role
    (user : option User) (t : Transfers.Transfer) (p : Purchases.Purchase) :
  (role_of user = Some "logistics_officer" ->
   Transfers.rowActions user t = None /\ Purchases.rowActions user p = None)
  /\ (role_of user = Some "admin" ->
      Transfers.rowActions user t
      = Some (if Transfers.canApprove t
              then [button Approve; button Reject; button Edit; button Delete]
              else [button Edit; button Delete])
      /\ Purchases.rowActions user p
         = Some (if Purchases.canApprove p
                 then [button Approve; button Reject; button Edit; button Delete]
                 else [button Edit; button Delete]))
  /\ (role_of user = Some "base_commander" ->
      Transfers.rowActions user t
      = Some ((if Transfers.canEdit user t then [button Edit] else [])
              ++ (if Transfers.canDelete user t then [button Delete] else []))%list
      /\ Purchases.rowActions user p
         = Some ((if Purchases.canEdit user p then [button Edit] else [])
                 ++ (if Purchases.canDelete user p then [button Delete] else []))%list)
  /\ (forall acts,
        Transfers.rowActions user t = Some acts \/ Purchases.rowActions user p = Some acts ->
        (In (button Approve) acts <-> In (button Reject) acts)
        /\ (In (button Approve) acts -> role_of user = Some "admin")).
Proof.
  split; [|split; [|split]].
  - intros Hr. unfold Transfers.rowActions, Purchases.rowActions.
    by rewrite !(role_is user _ Hr).
  - intros Hr.
    unfold Transfers.rowActions, Purchases.rowActions, Transfers.canEdit,
      Transfers.canDelete, Purchases.canEdit, Purchases.canDelete.
    rewrite !(role_is user _ Hr). simpl.
    by destruct (Transfers.canApprove t), (Purchases.canApprove p).
  - intros Hr. unfold Transfers.rowActions, Purchases.rowActions.
    rewrite !(role_is user _ Hr). simpl. done.
  - intros acts Hacts.
    unfold Transfers.rowActions, Purchases.rowActions in Hacts.
    destruct (JS.strict_eq (role_of user) "logistics_officer");
      simpl in Hacts; [by destruct Hacts|].
    destruct (JS.strict_eq (role_of user) "admin") eqn:Ha.
    + apply strict_eq_true in Ha.
      destruct Hacts as [[= <-]|[= <-]]; simpl.
      * destruct (Transfers.canApprove t), (Transfers.canEdit user t),
          (Transfers.canDelete user t); simpl; unfold button;
          intuition congruence.
      * destruct (Purchases.canApprove p), (Purchases.canEdit user p),
          (Purchases.canDelete user p); simpl; unfold button;
          intuition congruence.
    + destruct Hacts as [[= <-]|[= <-]]; simpl.
      * destruct (Transfers.canEdit user t), (Transfers.canDelete user t);
          simpl; unfold button; intuition congruence.
      * destruct (Purchases.canEdit user p), (Purchases.canDelete user p);
          simpl; unfold button; intuition congruence.
Qed.

End PermissionsMore.

(** ** The transfer dialog *)

Section TransferDialog.
Import TransfersDialog.

Lemma missingField_false (f : CreateTransferForm) :
  missingField f = false
  <-> from_base_id f <> "" /\ to_base_id f <> "" /\ asset_name f <> ""
      /\ quantity f <> 0%Z /\ transfer_date f <> "".
Proof.
  unfold missingField. rewrite !orb_false_iff, !negb_false_iff, !truthy_true.
  rewrite Z.eqb_neq. tauto.
Qed.

Lemma selectedAsset_Some (d : Dialog) (asset : Asset) :
  selectedAsset d = Some asset ->
  In asset (assets d) /\ name asset = asset_name (formData d)
  /\ base_id asset = from_base_id (formData d).
Proof.
  intros Hfind. apply find_some in Hfind as [Hin Hp].
  apply andb_true_iff in Hp as [Hn Hb].
  by apply String.eqb_eq in Hn, Hb.
Qed.

(** X15. Submitting the transfer dialog sends a request exactly when the
    two bases, the asset name and the date are filled in and the quantity
    is positive; otherwise nothing is sent, the dialog stays as it is and
    an error is shown.  The request is always POST /transfers, also when
    the dialog was opened to edit a transfer: no PUT is ever sent.  When
    the submit button was enabled and a request was sent, the quantity is
    between 1 and the available quantity of a loaded asset with that name
    at the source base. *)
Theorem transfer_submission
    (serialize : list (string * string) -> string)
    (s : Transfers.State) (d : Dialog) (response : Settled unit) :
  let result := handleCreateTransfer serialize s d response in
  let sent := snd result in
  let f := formData d in
  (sent <> [] <->
     from_base_id f <> "" /\ to_base_id f <> "" /\ asset_name f <> ""
     /\ transfer_date f <> "" /\ (0 < quantity f)%Z)
  /\ (sent = [] ->
      snd (fst result) = d /\ Transfers.error (fst (fst result)) <> ""
      /\ Transfers.transfers (fst (fst result)) = Transfers.transfers s)
  /\ (sent <> [] -> head sent = Some (mkRequest POST "/transfers"))
  /\ (forall r, In r sent -> method r <> PUT)
  /\ (submitDisabled d = false -> sent <> [] ->
      exists asset, In asset (assets d)
                    /\ name asset = asset_name f /\ base_id asset = from_base_id f
                    /\ (0 < quantity f <= available_quantity asset)%Z).
Proof.
  simpl. unfold handleCreateTransfer.
  destruct (missingField (formData d)) eqn:Hmiss.
  - simpl. split; [|split; [|split; [|split]]]; try done.
    + split; [done|]. intros (Hf & Ht & Ha & Hd & Hq).
      assert (missingField (formData d) = false) as Hok
          by (apply missingField_false; repeat split; try done; lia).
      congruence.
  - apply missingField_false in Hmiss as Hfields.
    destruct Hfields as (Hf & Ht & Ha & Hq0 & Hd).
    destruct (Z.leb_spec (quantity (formData d)) 0) as [Hle|Hpos].
    + simpl. split; [|split; [|split; [|split]]]; try done.
      split; [done|]. intros (_ & _ & _ & _ & Hq). lia.
    + assert (Hsent : snd (match response with
                | Resolved _ =>
                    (Transfers.setError "" (Transfers.setLoading true s),
                     resetForm (mkDialog false (editingTransfer d) (formData d) (assets d)),
                     [mkRequest POST "/transfers"; Query.transfersRequest serialize s])
                | Rejected err =>
                    (Transfers.setError
                       (JS.or_else (response_data_error err) "Failed to create transfer") s,
                     d, [mkRequest POST "/transfers"])
                end) <> []) by by destruct response.
      split; [by split|]. split; [done|].
      split; [by destruct response|].
      split.
      * intros r Hr. destruct response; simpl in Hr; intuition (subst; done).
      * intros Hen _. unfold submitDisabled in Hen. rewrite Hmiss in Hen.
        simpl in Hen. apply Z.ltb_ge in Hen. unfold maxQuantity in Hen.
        destruct (selectedAsset d) as [asset|] eqn:Hsel; [|lia].
        apply selectedAsset_Some in Hsel as (Hin & Hn & Hb).
        exists asset. repeat split; try done; lia.
Qed.

End TransferDialog.

(** ** The asset dialog *)

Section AssetDialog.
Import AssetsDialog.

(** X16. Editing an asset: the dialog opens on the asset's own name, base
    and quantity, and "Save" is enabled exactly when the name and the base
    are not empty and the quantity is at least 1.  Saving sends PUT
    /assets/<id> for that asset.  On success the reload is sent and the
    dialog closes, and once the reload returns the list is the server's
    data; on failure no reload is sent, the dialog stays open on the asset,
    the list is kept and an error is shown.  A quantity typed into the
    dialog is never 0. *)
Theorem asset_edit_flow
    (s : Assets.State) (d : Dialog) (a : Assets.Asset)
    (response : Settled unit) (data : list Assets.Asset) (parsed : option Z) :
  let d1 := handleOpenDialog d (Some a) in
  let result := handleSubmit s d1 response in
  let s2 := fst (fst result) in
  let d2 := snd (fst result) in
  formData d1 = mkForm (Assets.name a) (Assets.base_id a) (Assets.quantity a)
  /\ (saveDisabled d1 = false <->
        Assets.name a <> "" /\ Assets.base_id a <> "" /\ (1 <= Assets.quantity a)%Z)
  /\ head (snd result) = Some (mkRequest PUT ("/assets/" ++ Assets.id a))
  /\ match response with
     | Resolved _ =>
         snd result = [mkRequest PUT ("/assets/" ++ Assets.id a);
                       mkRequest GET "/assets?limit=1000"]
         /\ openDialog d2 = false /\ editingAsset d2 = None
         /\ Assets.allAssets (Assets.fetchAllAssets s2 (Resolved data)) = data
         /\ Assets.loading (Assets.fetchAllAssets s2 (Resolved data)) = false
     | Rejected err =>
         snd result = [mkRequest PUT ("/assets/" ++ Assets.id a)]
         /\ d2 = d1 /\ Assets.allAssets s2 = Assets.allAssets s
         /\ Assets.error s2 <> ""
     end
  /\ quantityInput parsed <> 0%Z.
Proof.
  simpl. split; [done|]. split; [|split; [|split]].
  - unfold saveDisabled. simpl.
    rewrite !orb_false_iff, !negb_false_iff, !truthy_true, Z.ltb_ge. tauto.
  - by destruct response.
  - destruct response as [[]|err]; simpl; [done|].
    repeat split; try done. by apply or_else_nonempty.
  - unfold quantityInput. destruct parsed as [n|]; [|done].
    destruct (Z.eqb_spec n 0); [done|lia].
Qed.

End AssetDialog.

(** ** The assignment dialogs *)

Section AssignmentDialog.
Import AssignmentsDialog.

(** X17. Saving an assignment sends at most one request, and only when the
    selected asset is among the loaded assets and the quantity, with 0
    read as 1, is positive.  The body then names that asset, carries a
    quantity of at least 1, and carries as base the principal's own base
    unless the principal is an admin, for whom it is the base chosen in the
    form.  The request is a PUT on the assignment being edited and a POST
    otherwise; a reload follows exactly when it succeeded.  When nothing is
    sent the dialog and the list are left as they were. *)
Theorem assignment_submission
    (user : option AuthContext.User) (s : Assignments.State) (d : Dialog)
    (response : Settled unit) :
  let result := handleSubmit user s d response in
  let sent := snd (fst result) in
  let reload := snd result in
  length sent <= 1
  /\ (forall request payload, In (request, payload) sent ->
        (1 <= p_quantity payload)%Z
        /\ (exists asset, In asset (assets d)
                          /\ asset_id asset = f_asset_id (formData d)
                          /\ p_asset_name payload = asset_name asset)
        /\ p_assigned_to payload = f_personnel_id (formData d)
        /\ (AuthContext.role_of user <> Some "admin" ->
            p_base_id payload = AuthContext.base_id_of user)
        /\ (AuthContext.role_of user = Some "admin" ->
            p_base_id payload = Some (f_base_id (formData d)))
        /\ request = match editingAssignment d with
                     | Some a => mkRequest PUT ("/assignments/" ++ Assignments.id a)
                     | None => mkRequest POST "/assignments"
                     end)
  /\ (reload <> [] <-> sent <> [] /\ exists u, response = Resolved u)
  /\ (sent = [] ->
      snd (fst (fst result)) = d
      /\ Assignments.allAssignments (fst (fst (fst result)))
         = Assignments.allAssignments s
      /\ Assignments.error (fst (fst (fst result))) <> "").
Proof.
  simpl. unfold handleSubmit.
  destruct (find _ (assets d)) as [asset|] eqn:Hfind.
  - apply find_some in Hfind as [Hin Hid]. apply String.eqb_eq in Hid.
    destruct (Z.leb_spec (submittedQuantity (formData d)) 0) as [Hle|Hpos].
    + simpl. repeat split; try done; try lia. by intros [? _].
    + destruct response as [[]|err]; simpl.
      * split; [lia|]. split; [|split; [|done]].
        -- intros request payload [[= <- <-]|[]]. simpl.
           split; [lia|]. split; [by exists asset|]. split; [done|].
           split; [|split; [|done]].
           ++ intros Hr. apply strict_eq_false in Hr. by rewrite Hr.
           ++ intros Hr. apply strict_eq_true in Hr. by rewrite Hr.
        -- split; [|done]. intros _. split; [done|by exists ()].
      * split; [lia|]. split; [|split; [|done]].
        -- intros request payload [[= <- <-]|[]]. simpl.
           split; [lia|]. split; [by exists asset|]. split; [done|].
           split; [|split; [|done]].
           ++ intros Hr. apply strict_eq_false in Hr. by rewrite Hr.
           ++ intros Hr. apply strict_eq_true in Hr. by rewrite Hr.
        -- split; [done|]. by intros [_ [? ?]].
  - simpl. repeat split; try done; try lia. by intros [? _].
Qed.

Lemma filter_Forall_bool {A : Type} (f : A -> bool) (l : list A) :
  forall x, In x (List.filter f l) -> f x = true.
Proof. intros x Hx. by apply filter_In in Hx as [_ ?]. Qed.

Lemma filter_none {A : Type} (f : A -> bool) (l : list A) :
  (forall x, f x = false) -> List.filter f l = [].
Proof.
  intros Hnone. induction l as [|x l IH]; simpl; [done|]. by rewrite Hnone.
Qed.

(** X18. The asset and personnel choices of the assignment dialog: for
    anyone but an admin they are the loaded records of the principal's own
    base, and none at all for a principal without a base; for an admin they
    are the loaded records of the base chosen in the form, and all loaded
    records while no base is chosen.  They always keep the loaded order. *)
Theorem assignment_dialog_choices
    (user : option AuthContext.User) (d : Dialog) :
  (sublist (filteredAssets user d) (assets d)
   /\ sublist (filteredPersonnel user d) (personnel d))
  /\ (AuthContext.role_of user <> Some "admin" ->
      (forall a, In a (filteredAssets user d) <->
                 In a (assets d) /\ AuthContext.base_id_of user = Some (asset_base_id a))
      /\ (forall p, In p (filteredPersonnel user d) <->
                    In p (personnel d)
                    /\ AuthContext.base_id_of user = Some (personnel_base_id p))
      /\ (AuthContext.base_id_of user = None ->
          filteredAssets user d = [] /\ filteredPersonnel user d = []))
  /\ (AuthContext.role_of user = Some "admin" ->
      (f_base_id (formData d) = "" ->
       filteredAssets user d = assets d /\ filteredPersonnel user d = personnel d)
      /\ (f_base_id (formData d) <> "" ->
          (forall a, In a (filteredAssets user d) <->
                     In a (assets d) /\ asset_base_id a = f_base_id (formData d))
          /\ (forall p, In p (filteredPersonnel user d) <->
                        In p (personnel d)
                        /\ personnel_base_id p = f_base_id (formData d)))).
Proof.
  unfold filteredAssets, filteredPersonnel.
  split; [|split].
  - destruct (JS.strict_eq _ "admin"); [destruct (JS.truthy _)|];
      split; try done; apply filter_sublist.
  - intros Hr. apply strict_eq_false in Hr. rewrite Hr.
    split; [|split].
    + intros a. by rewrite filter_In, strict_eq_true.
    + intros p. by rewrite filter_In, strict_eq_true.
    + intros ->. by split; apply filter_none.
  - intros Hr. apply strict_eq_true in Hr. rewrite Hr. split.
    + intros ->. done.
    + intros Hb. apply truthy_true in Hb. rewrite Hb. split.
      * intros a. by rewrite filter_In, String.eqb_eq.
      * intros p. by rewrite filter_In, String.eqb_eq.
Qed.

End AssignmentDialog.

(** ** The expend dialog *)

Section ExpendDialog.
Import AssignmentsDialog.
Variable isWhiteSpace : ascii -> bool.

Lemma trimStart_nil (cs : list ascii) :
  trimStart isWhiteSpace cs = [] <-> forall c, In c cs -> isWhiteSpace c = true.
Proof.
  induction cs as [|c cs IH]; simpl.
  - split; [by intros _ c []|done].
  - destruct (isWhiteSpace c) eqn:Hc.
    + rewrite IH. split.
      * intros Hall x [<-|Hx]; [done|by apply Hall].
      * intros Hall x Hx. apply Hall. by right.
    + split; [done|]. intros Hall. specialize (Hall c (or_introl eq_refl)).
      congruence.
Qed.

Lemma trimStart_In (cs : list ascii) (c : ascii) :
  In c (trimStart isWhiteSpace cs) -> In c cs.
Proof.
  induction cs as [|x cs IH]; simpl; [done|].
  destruct (isWhiteSpace x); [|done]. intros Hc. right. by apply IH.
Qed.

Lemma string_of_list_ascii_nil (cs : list ascii) :
  string_of_list_ascii cs = "" <-> cs = [].
Proof. destruct cs; simpl; split; congruence. Qed.

Lemma trimStart_head (cs rest : list ascii) (c : ascii) :
  trimStart isWhiteSpace cs = c :: rest -> isWhiteSpace c = false.
Proof.
  induction cs as [|x cs IH]; simpl; [done|].
  destruct (isWhiteSpace x) eqn:Hx; [done|]. by intros [= <- _].
Qed.

(** Trimming leaves nothing exactly when every character is white space. *)
Lemma trim_blank (s : string) :
  JS.truthy (trim isWhiteSpace s) = false
  <-> forall c, In c (list_ascii_of_string s) -> isWhiteSpace c = true.
Proof.
  rewrite truthy_false. unfold trim.
  rewrite string_of_list_ascii_nil, <- trimStart_nil.
  generalize (list_ascii_of_string s). intros cs.
  split.
  - intros Hnil. apply (f_equal (@rev ascii)) in Hnil.
    rewrite rev_involutive in Hnil. simpl in Hnil.
    rewrite trimStart_nil in Hnil.
    destruct (trimStart isWhiteSpace cs) as [|c rest] eqn:Hstart; [done|].
    assert (Hc : isWhiteSpace c = true).
    { apply Hnil. apply in_rev. rewrite rev_involutive. by left. }
    apply trimStart_head in Hstart. congruence.
  - by intros ->.
Qed.

(** X19. Expending an assignment sends a request exactly when an
    assignment was picked and the reason has a character that is not white
    space; the body carries the quantity and the reason as typed.  With a
    blank reason nothing is sent and 'Reason is required for expenditure'
    is shown, which is also what happens right after the dialog is opened,
    since opening it clears the reason; the submit button is disabled in
    exactly those cases.  A success closes the dialog and reloads; a failure
    leaves it open with an error and the list untouched. *)
Theorem expend_submission
    (s : Assignments.State) (d : Dialog) (a : Assignments.Assignment)
    (response : Settled unit) :
  let result := handleExpendSubmit isWhiteSpace s d response in
  let sent := snd (fst result) in
  (sent <> [] <->
     is_Some (expendingAssignment d)
     /\ exists c, In c (list_ascii_of_string (expendReason d))
                  /\ isWhiteSpace c = false)
  /\ (expendDisabled isWhiteSpace d = true -> sent = [])
  /\ (forall request body, In (request, body) sent ->
        body = (expendQuantity d, expendReason d)
        /\ exists a', expendingAssignment d = Some a'
                      /\ request = mkRequest PUT
                                     ("/assignments/" ++ Assignments.id a' ++ "/expend"))
  /\ (let opened := handleExpendSubmit isWhiteSpace s (handleExpend d a) response in
      snd (fst opened) = []
      /\ Assignments.error (fst (fst (fst opened))) = "Reason is required for expenditure")
  /\ (sent <> [] ->
      match response with
      | Resolved _ =>
          expendDialog (snd (fst (fst result))) = false
          /\ expendingAssignment (snd (fst (fst result))) = None
          /\ snd result = [mkRequest GET "/assignments?limit=1000"]
      | Rejected err =>
          snd (fst (fst result)) = d /\ snd result = []
          /\ Assignments.allAssignments (fst (fst (fst result)))
             = Assignments.allAssignments s
          /\ Assignments.error (fst (fst (fst result))) <> ""
      end).
Proof.
  simpl. unfold handleExpendSubmit, expendDisabled.
  assert (Hnonblank : JS.truthy (trim isWhiteSpace (expendReason d)) = true
                      <-> exists c, In c (list_ascii_of_string (expendReason d))
                                    /\ isWhiteSpace c = false).
  { split.
    - intros Htrue.
      destruct (List.existsb (fun c => negb (isWhiteSpace c))
                  (list_ascii_of_string (expendReason d))) eqn:Hex.
      + apply existsb_exists in Hex as (c & Hin & Hc).
        exists c. split; [done|]. by apply negb_true_iff.
      + assert (JS.truthy (trim isWhiteSpace (expendReason d)) = false); [|congruence].
        apply trim_blank. intros c Hin.
        destruct (isWhiteSpace c) eqn:Hc; [done|].
        assert (List.existsb (fun c => negb (isWhiteSpace c))
                  (list_ascii_of_string (expendReason d)) = true); [|congruence].
        apply existsb_exists. exists c. by rewrite Hc.
    - intros (c & Hin & Hc).
      destruct (JS.truthy (trim isWhiteSpace (expendReason d))) eqn:Ht; [done|].
      rewrite trim_blank in Ht. specialize (Ht c Hin). congruence. }
  split; [|split; [|split; [|split]]].
  - destruct (expendingAssignment d) as [a'|]; simpl.
    + destruct (JS.truthy (trim isWhiteSpace (expendReason d))) eqn:Ht; simpl.
      * split; [intros _|by destruct response].
        split; [by exists a'|]. by apply Hnonblank.
      * split; [done|]. intros [_ Hc]. apply Hnonblank in Hc. congruence.
    + split; [done|]. by intros [[? ?] _].
  - intros Hdis. destruct (expendingAssignment d); [|done]. by rewrite Hdis.
  - intros request body.
    destruct (expendingAssignment d) as [a'|]; simpl; [|done].
    destruct (negb (JS.truthy (trim isWhiteSpace (expendReason d)))); simpl; [done|].
    destruct response; simpl; intros [[= <- <-]|[]]; split; try done; by exists a'.
  - done.
  - destruct (expendingAssignment d) as [a'|]; simpl; [|done].
    destruct (negb (JS.truthy (trim isWhiteSpace (expendReason d)))); simpl; [done|].
    intros _. destruct response as [[]|err]; simpl; [done|].
    repeat split; try done. by apply or_else_nonempty.
Qed.

End ExpendDialog.

(** ** Deleting and rejecting *)

Section Deleting.
Import Mutations.

(** X20. The five delete handlers do nothing at all unless the
    confirmation was accepted.  Once accepted they send DELETE on the
    record's path, followed by the reload of the list when the deletion
    succeeded: GET with limit=1000 for the assets, purchases and
    assignments, and for the transfers and expenditures the GET of their
    fetcher, whose query is the serialised page, page size and non-empty
    criteria of the list.  When the deletion failed the loaded records are
    kept and a non-empty error is shown.  Rejecting a transfer has no such
    guard: the request is sent whatever the prompt returned, also when it
    was cancelled. *)
Theorem delete_needs_confirmation
    (serialize : list (string * string) -> string)
    (id : string) (response : Settled unit) (notes : option string)
    (sa : Assets.State) (sp : Purchases.State) (sg : Assignments.State)
    (st : Transfers.State) (se : Expenditures.State) :
  (assets_handleDelete sa id false response = (sa, [])
   /\ purchases_handleDelete sp id false response = (sp, [])
   /\ assignments_handleDelete sg id false response = (sg, [])
   /\ transfers_handleDeleteTransfer serialize st id false response = (st, [])
   /\ expenditures_handleDeleteExpenditure serialize se id false response = (se, []))
  /\ (snd (assets_handleDelete sa id true response)
      = with_reload (mkRequest DELETE ("/assets/" ++ id))
          (mkRequest GET "/assets?limit=1000") response
      /\ snd (purchases_handleDelete sp id true response)
         = with_reload (mkRequest DELETE ("/purchases/" ++ id))
             (mkRequest GET "/purchases?limit=1000") response
      /\ snd (assignments_handleDelete sg id true response)
         = with_reload (mkRequest DELETE ("/assignments/" ++ id))
             (mkRequest GET "/assignments?limit=1000") response
      /\ snd (transfers_handleDeleteTransfer serialize st id true response)
         = with_reload (mkRequest DELETE ("/transfers/" ++ id))
             (mkRequest GET ("/transfers?" ++ serialize (Query.transfers st))) response
      /\ snd (expenditures_handleDeleteExpenditure serialize se id true response)
         = with_reload (mkRequest DELETE ("/expenditures/" ++ id))
             (mkRequest GET ("/expenditures?" ++ serialize (Query.expenditures se))) response)
  /\ (forall err, response = Rejected err ->
      (let s' := fst (assets_handleDelete sa id true response) in
       Assets.allAssets s' = Assets.allAssets sa /\ Assets.error s' <> "")
      /\ (let s' := fst (purchases_handleDelete sp id true response) in
          Purchases.allPurchases s' = Purchases.allPurchases sp
          /\ Purchases.error s' <> "")
      /\ (let s' := fst (assignments_handleDelete sg id true response) in
          Assignments.allAssignments s' = Assignments.allAssignments sg
          /\ Assignments.error s' <> "")
      /\ (let s' := fst (transfers_handleDeleteTransfer serialize st id true response) in
          Transfers.transfers s' = Transfers.transfers st /\ Transfers.error s' <> "")
      /\ (let s' := fst (expenditures_handleDeleteExpenditure serialize se id true response) in
          Expenditures.expenditures s' = Expenditures.expenditures se
          /\ Expenditures.error s' <> ""))
  /\ snd (transfers_handleRejectTransfer serialize st id notes response)
     = with_reload (mkRequest PUT ("/transfers/" ++ id ++ "/reject"))
         (mkRequest GET ("/transfers?" ++ serialize (Query.transfers st))) response.
Proof.
  split; [done|]. split; [by destruct response|]. split; [|by destruct response].
  intros err ->. simpl. repeat split; by apply or_else_nonempty.
Qed.

End Deleting.

(** ** Query strings *)

Section QueryStrings.

Lemma append_if_In (key value : string) (params : list (string * string))
    (k v : string) :
  In (k, v) (Query.append_if key value params)
  <-> In (k, v) params \/ (k = key /\ v = value /\ value <> "").
Proof.
  unfold Query.append_if. destruct (JS.truthy value) eqn:Hv.
  - apply truthy_true in Hv. rewrite in_app_iff. simpl.
    split; [intros [?|[[= <- <-]|[]]]|intros [?|(-> & -> & _)]]; auto.
  - apply truthy_false in Hv. split; [auto|]. intros [?|(_ & _ & ?)]; [done|congruence].
Qed.

Lemma append_if_head (key value : string) (params : list (string * string)) (i : nat) :
  i < length params -> Query.append_if key value params !! i = params !! i.
Proof.
  intros Hi. unfold Query.append_if.
  destruct (JS.truthy value); [|done]. by apply lookup_app_l.
Qed.

Lemma append_if_length (key value : string) (params : list (string * string)) :
  length params <= length (Query.append_if key value params).
Proof.
  unfold Query.append_if. destruct (JS.truthy value); [|done].
  rewrite length_app. lia.
Qed.

(** X21. The query of the transfers and of the expenditures list starts
    with the page, counted from 1, and the page size; after them comes each
    criterion that is not empty, under its own key and with its value, and
    no criterion that is empty.  No key occurs twice. *)
Theorem list_queries (st : Transfers.State) (se : Expenditures.State) :
  (let params := Query.transfers st in
   let f := Transfers.filters st in
   params !! 0 = Some ("page", pretty (Transfers.page st + 1))
   /\ params !! 1 = Some ("limit", pretty (Transfers.rowsPerPage st))
   /\ pretty (Transfers.page st + 1) <> pretty 0
   /\ NoDup (map fst params)
   /\ (forall k v, In (k, v) params ->
         k = "page" \/ k = "limit"
         \/ (v <> ""
             /\ ((k = "from_base_id" /\ v = Transfers.f_from_base_id f)
                 \/ (k = "to_base_id" /\ v = Transfers.f_to_base_id f)
                 \/ (k = "asset_name" /\ v = Transfers.f_asset_name f)
                 \/ (k = "status" /\ v = Transfers.f_status f)
                 \/ (k = "start_date" /\ v = Transfers.f_start_date f)
                 \/ (k = "end_date" /\ v = Transfers.f_end_date f))))
   /\ (Transfers.f_from_base_id f <> "" ->
       In ("from_base_id", Transfers.f_from_base_id f) params)
   /\ (Transfers.f_to_base_id f <> "" ->
       In ("to_base_id", Transfers.f_to_base_id f) params)
   /\ (Transfers.f_asset_name f <> "" ->
       In ("asset_name", Transfers.f_asset_name f) params)
   /\ (Transfers.f_status f <> "" -> In ("status", Transfers.f_status f) params)
   /\ (Transfers.f_start_date f <> "" ->
       In ("start_date", Transfers.f_start_date f) params)
   /\ (Transfers.f_end_date f <> "" ->
       In ("end_date", Transfers.f_end_date f) params))
  /\ (let params := Query.expenditures se in
      let f := Expenditures.filters se in
      params !! 0 = Some ("page", pretty (Expenditures.page se + 1))
      /\ params !! 1 = Some ("limit", pretty (Expenditures.rowsPerPage se))
      /\ NoDup (map fst params)
      /\ (forall k v, In (k, v) params ->
            k = "page" \/ k = "limit"
            \/ (v <> ""
                /\ ((k = "base_id" /\ v = Expenditures.f_base_id f)
                    \/ (k = "start_date" /\ v = Expenditures.f_start_date f)
                    \/ (k = "end_date" /\ v = Expenditures.f_end_date f))))
      /\ (Expenditures.f_base_id f <> "" ->
          In ("base_id", Expenditures.f_base_id f) params)
      /\ (Expenditures.f_start_date f <> "" ->
          In ("start_date", Expenditures.f_start_date f) params)
      /\ (Expenditures.f_end_date f <> "" ->
          In ("end_date", Expenditures.f_end_date f) params)).
Proof.
  split.
  - simpl. unfold Query.transfers.
    split; [|split; [|split; [|split; [|split]]]].
    + rewrite !append_if_head; [done|..];
        repeat (eapply Nat.lt_le_trans; [|apply append_if_length]); simpl; lia.
    + rewrite !append_if_head; [done|..];
        repeat (eapply Nat.lt_le_trans; [|apply append_if_length]); simpl; lia.
    + intros Heq. apply (inj pretty) in Heq. lia.
    + unfold Query.append_if.
      destruct (JS.truthy (Transfers.f_from_base_id _)),
        (JS.truthy (Transfers.f_to_base_id _)),
        (JS.truthy (Transfers.f_asset_name _)),
        (JS.truthy (Transfers.f_status _)),
        (JS.truthy (Transfers.f_start_date _)),
        (JS.truthy (Transfers.f_end_date _)); simpl;
        apply (bool_decide_unpack _); by vm_compute.
    + intros k v. rewrite !append_if_In. simpl.
      intuition (try congruence; auto 10).
    + rewrite !append_if_In. tauto.
  - simpl. unfold Query.expenditures.
    split; [|split; [|split; [|split]]].
    + rewrite !append_if_head; [done|..];
        repeat (eapply Nat.lt_le_trans; [|apply append_if_length]); simpl; lia.
    + rewrite !append_if_head; [done|..];
        repeat (eapply Nat.lt_le_trans; [|apply append_if_length]); simpl; lia.
    + unfold Query.append_if.
      destruct (JS.truthy (Expenditures.f_base_id _)),
        (JS.truthy (Expenditures.f_start_date _)),
        (JS.truthy (Expenditures.f_end_date _)); simpl;
        apply (bool_decide_unpack _); by vm_compute.
    + intros k v. rewrite !append_if_In. simpl.
      intuition (try congruence; auto 10).
    + rewrite !append_if_In. tauto.
Qed.

End QueryStrings.

(** ** What the criteria mean *)

Section Criteria.

Lemma append_cons (c : ascii) (s t : string) : String c s ++ t = String c (s ++ t).
Proof. reflexivity. Qed.

Lemma append_empty (t : string) : "" ++ t = t.
Proof. reflexivity. Qed.

Lemma prefix_app (t s : string) :
  String.prefix t s = true <-> exists post, s = t ++ post.
Proof.
  revert s. induction t as [|a t IH]; intros s; simpl.
  - destruct s; (split; [intros _; eexists; reflexivity|done]).
  - destruct s as [|b s]; simpl.
    + split; [done|]. intros [post Hpost]. by rewrite append_cons in Hpost.
    + destruct (ascii_dec a b) as [->|Hab].
      * rewrite IH. split; intros [post Hpost]; exists post;
          rewrite append_cons in *; congruence.
      * split; [done|]. intros [post Hpost]. rewrite append_cons in Hpost.
        congruence.
Qed.

Lemma includes_empty (t : string) :
  JS.includes "" t = String.prefix t "" || false.
Proof. reflexivity. Qed.

Lemma includes_cons (c : ascii) (s t : string) :
  JS.includes (String c s) t = String.prefix t (String c s) || JS.includes s t.
Proof. reflexivity. Qed.

(** [includes] finds exactly the contiguous occurrences. *)
Lemma includes_app (s t : string) :
  JS.includes s t = true <-> exists pre post, s = pre ++ t ++ post.
Proof.
  induction s as [|c s IH]; [rewrite includes_empty|rewrite includes_cons].
  - rewrite orb_false_r, prefix_app. split.
    + intros [post Hpost]. by exists "", post.
    + intros (pre & post & Heq). destruct pre as [|c pre].
      * rewrite append_empty in Heq. by exists post.
      * by rewrite append_cons in Heq.
  - rewrite orb_true_iff, prefix_app, IH. split.
    + intros [[post Hpost]|(pre & post & Heq)].
      * by exists "", post.
      * exists (String c pre), post. by rewrite append_cons, Heq.
    + intros (pre & post & Heq). destruct pre as [|c' pre].
      * left. rewrite append_empty in Heq. by exists post.
      * right. rewrite append_cons in Heq. injection Heq as _ Heq.
        by exists pre, post.
Qed.

Lemma ltb_false_leb (a b : string) :
  String.ltb a b = false <-> String.leb b a = true.
Proof.
  unfold String.ltb, String.leb. rewrite (String.compare_antisym a b).
  by destruct (String.compare b a).
Qed.

Lemma criterion_eq (criterion field : string) :
  JS.truthy criterion && negb (String.eqb field criterion) = false
  <-> criterion = "" \/ field = criterion.
Proof.
  rewrite andb_false_iff, negb_false_iff, truthy_false, String.eqb_eq. tauto.
Qed.

(** X22. A record is kept by a list's filter exactly when it meets every
    criterion that is not empty.  For assignments: the base, the status,
    the asset and the person are equal to the criterion.  For purchases:
    the base and the status are equal to the criterion and the purchase
    date is not before the start date and not after the end date, in the
    order of strings.  For assets: the base and the status are equal to the
    criterion and the lower-cased name contains the lower-cased name
    criterion as a contiguous part. *)
Theorem criteria_meaning
    (toLowerCase : string -> string)
    (fa : Assets.Filters) (a : Assets.Asset)
    (fp : Purchases.Filters) (p : Purchases.Purchase)
    (fg : Assignments.Filters) (g : Assignments.Assignment) :
  (Assignments.keep fg g = true <->
     (Assignments.f_base_id fg = "" \/ Assignments.base_id g = Assignments.f_base_id fg)
     /\ (Assignments.f_status fg = "" \/ Assignments.status g = Assignments.f_status fg)
     /\ (Assignments.f_asset_id fg = ""
         \/ Assignments.asset_id g = Assignments.f_asset_id fg)
     /\ (Assignments.f_personnel_id fg = ""
         \/ Assignments.personnel_id g = Assignments.f_personnel_id fg))
  /\ (Purchases.keep fp p = true <->
        (Purchases.f_base_id fp = "" \/ Purchases.base_id p = Purchases.f_base_id fp)
        /\ (Purchases.f_start_date fp = ""
            \/ String.leb (Purchases.f_start_date fp) (Purchases.purchase_date p) = true)
        /\ (Purchases.f_end_date fp = ""
            \/ String.leb (Purchases.purchase_date p) (Purchases.f_end_date fp) = true)
        /\ (Purchases.f_status fp = "" \/ Purchases.status p = Purchases.f_status fp))
  /\ (Assets.keep toLowerCase fa a = true <->
        (Assets.f_name fa = ""
         \/ exists pre post,
              toLowerCase (Assets.name a) = pre ++ toLowerCase (Assets.f_name fa) ++ post)
        /\ (Assets.f_base_id fa = "" \/ Assets.base_id a = Assets.f_base_id fa)
        /\ (Assets.f_status fa = "" \/ Assets.status a = Assets.f_status fa)).
Proof.
  split; [|split].
  - unfold Assignments.keep. rewrite <- !criterion_eq.
    destruct (JS.truthy (Assignments.f_base_id fg) && _),
      (JS.truthy (Assignments.f_status fg) && _),
      (JS.truthy (Assignments.f_asset_id fg) && _),
      (JS.truthy (Assignments.f_personnel_id fg) && _); intuition congruence.
  - unfold Purchases.keep.
    rewrite <- !criterion_eq, <- !ltb_false_leb.
    assert (Hdate : forall c x, JS.truthy c && x = false <-> c = "" \/ x = false).
    { intros c x. rewrite andb_false_iff, truthy_false. tauto. }
    rewrite <- !Hdate.
    destruct (JS.truthy (Purchases.f_base_id fp) && _),
      (JS.truthy (Purchases.f_start_date fp) && _),
      (JS.truthy (Purchases.f_end_date fp) && _),
      (JS.truthy (Purchases.f_status fp) && _); intuition congruence.
  - unfold Assets.keep. rewrite <- !criterion_eq, <- includes_app.
    assert (Hname : forall c x, JS.truthy c && negb x = false <-> c = "" \/ x = true).
    { intros c x. rewrite andb_false_iff, negb_false_iff, truthy_false. tauto. }
    rewrite <- Hname.
    destruct (JS.truthy (Assets.f_name fa) && _),
      (JS.truthy (Assets.f_base_id fa) && _),
      (JS.truthy (Assets.f_status fa) && _); intuition congruence.
Qed.

End Criteria.
